(** * shaper: checkpointing, model registry, data loading and metrics

    A shallow embedding of the orchestration code of the shaper point-cloud
    framework:

    - [shaper/utils/checkpoint.py]   ([Checkpointer]),
    - [shaper/models/build.py]       (the model-builder registry),
    - [shaper/data/build.py]         ([build_dataloader]),
    - [shaper/models/metric.py]      ([ClsAccuracy]),
    - [shaper_few_shot/data/datasets/shapenet_fewshot.py] ([__getitem__]).

    Python values are modelled as follows.  A [str] is a [string] whose
    characters stand for the code points of the same number (code points
    from 256 up are outside the model); a [dict] with string keys is a
    [gmap string _]; [None]-able values are [option]s; a raised exception
    is the [Raise] branch of [result]. *)

From Stdlib Require Import ZArith QArith String Ascii List Bool Lia Permutation.
From stdpp Require Import gmap strings list fin_maps.

Local Open Scope string_scope.

(** ** Exceptions *)

Inductive exn : Type :=
| IOError              (* OSError and its subclasses *)
| KeyError
| AttributeError
| AssertionError
| NotImplementedError
| UnpicklingError
| UnicodeDecodeError
| IndexError
| TypeError
| RuntimeError.

Inductive result (A : Type) : Type :=
| Ok (a : A)
| Raise (e : exn).

Arguments Ok {A} a.
Arguments Raise {A} e.

Definition rbind {A B} (r : result A) (k : A -> result B) : result B :=
  match r with
  | Ok a => k a
  | Raise e => Raise e
  end.

Notation "x <-- r ;; k" := (rbind r (fun x => k))
  (at level 100, r at next level, right associativity).

(** ** Python strings *)

Module PyStr.

(** [bool(s)] for a string: the empty string is false. *)
Definition truthy (s : string) : bool :=
  match s with
  | EmptyString => false
  | String _ _ => true
  end.

(** [c.isspace()] on the code points below 256. *)
Definition isspace (c : ascii) : bool :=
  let n := nat_of_ascii c in
  (Nat.leb 9 n && Nat.leb n 13) || (Nat.leb 28 n && Nat.leb n 32)
  || Nat.eqb n 133 || Nat.eqb n 160.

Fixpoint lstrip (s : string) : string :=
  match s with
  | EmptyString => EmptyString
  | String c r => if isspace c then lstrip r else s
  end.

Fixpoint rstrip (s : string) : string :=
  match s with
  | EmptyString => EmptyString
  | String c r =>
      match rstrip r with
      | EmptyString => if isspace c then EmptyString else String c EmptyString
      | r' => String c r'
      end
  end.

(** [s.strip()] *)
Definition strip (s : string) : string := rstrip (lstrip s).

(** [s.startswith(c)] and [s.endswith(c)] for a one-character [c]. *)
Definition startswith (c : ascii) (s : string) : bool :=
  match s with
  | String a _ => Ascii.eqb a c
  | EmptyString => false
  end.

Fixpoint endswith (c : ascii) (s : string) : bool :=
  match s with
  | EmptyString => false
  | String a EmptyString => Ascii.eqb a c
  | String _ r => endswith c r
  end.

(** [s.rfind(c)], counting positions from [i]: the highest index of an
    occurrence of [c], or [-1]. *)
Fixpoint rfind_from (c : ascii) (s : string) (i : Z) : Z :=
  match s with
  | EmptyString => (-1)%Z
  | String a r =>
      let k := rfind_from c r (i + 1) in
      if (0 <=? k)%Z then k else if Ascii.eqb a c then i else (-1)%Z
  end.

Definition rfind (c : ascii) (s : string) : Z := rfind_from c s 0.

(** [s[n:]] for [n >= 0]. *)
Fixpoint drop (n : nat) (s : string) : string :=
  match n, s with
  | O, _ => s
  | S _, EmptyString => EmptyString
  | S m, String _ r => drop m r
  end.

(** [c in s] *)
Fixpoint contains (c : ascii) (s : string) : bool :=
  match s with
  | EmptyString => false
  | String a r => Ascii.eqb a c || contains c r
  end.

End PyStr.

(** ** [posixpath] *)

Module Posixpath.

Definition sep : ascii := "/"%char.

(** [os.path.isabs(s)]: [s.startswith('/')]. *)
Definition isabs (s : string) : bool := PyStr.startswith sep s.

(** [os.path.join(a, b)]:
    [if b.startswith(sep): path = b
     elif not path or path.endswith(sep): path += b
     else: path += sep + b]. *)
Definition join (a b : string) : string :=
  if PyStr.startswith sep b then b
  else if negb (PyStr.truthy a) || PyStr.endswith sep a then a ++ b
  else a ++ String sep b.

(** [os.path.basename(p)]: [i = p.rfind('/') + 1; return p[i:]]. *)
Definition basename (p : string) : string :=
  PyStr.drop (Z.to_nat (PyStr.rfind sep p + 1)) p.

End Posixpath.

(** ** The file store *)

Module Fs.
Section Fs.
(** [V] is the type of the values a checkpoint dictionary holds (state
    dictionaries and extra data). *)
Context {V : Type}.

(** A path names a directory, a text file or a pickled dictionary.  The
    store is keyed by the path string: two different strings are two
    different files.  Spellings of one file (["out/m.pth"] and
    ["out/./m.pth"]) and links are therefore outside the model; where a
    property compares two paths it takes them to be [save_dir] joined
    with two different names that contain no ['/']. *)
Inductive file : Type :=
| FDir
| FText (s : string)
| FCkpt (d : gmap string V).

(** [writable p]: the environment lets [p] be opened for writing (its
    parent directory exists, permissions allow it). *)
Variable writable : string -> bool.

(** [os.path.exists(p)] *)
Definition exists_ (p : string) (fs : gmap string file) : bool :=
  match fs !! p with
  | Some _ => true
  | None => false
  end.

(** [open(p, "w")]: fails on a directory and where the environment
    refuses. *)
Definition open_w (p : string) (fs : gmap string file) : result unit :=
  match fs !! p with
  | Some FDir => Raise IOError
  | _ => if writable p then Ok tt else Raise IOError
  end.

(** [with open(p, "w") as f: f.write(s)] *)
Definition write_text (p s : string) (fs : gmap string file)
  : result (gmap string file) :=
  _ <-- open_w p fs ;; Ok (<[p := FText s]> fs).

(** Text-mode reading translates ["\r\n"] and a lone ["\r"] into
    ["\n"] (universal newlines). *)
Fixpoint newlines (s : string) : string :=
  match s with
  | EmptyString => EmptyString
  | String c r =>
      if Ascii.eqb c "013"%char then
        String "010"%char
          match r with
          | String c2 r' =>
              if Ascii.eqb c2 "010"%char then newlines r' else newlines r
          | EmptyString => newlines r
          end
      else String c (newlines r)
  end.

(** [with open(p, "r") as f: f.read()] *)
Definition read_text (p : string) (fs : gmap string file) : result string :=
  match fs !! p with
  | None => Raise IOError
  | Some FDir => Raise IOError
  | Some (FText s) => Ok (newlines s)
  | Some (FCkpt _) => Raise UnicodeDecodeError
  end.

(** [torch.save(data, p)] *)
Definition torch_save (data : gmap string V) (p : string)
    (fs : gmap string file) : result (gmap string file) :=
  _ <-- open_w p fs ;; Ok (<[p := FCkpt data]> fs).

(** [torch.load(p)].  What matters below is the file that [torch.save]
    has written, which loads as the dictionary saved, and the path that
    names no file.  A text file is no checkpoint: the exception of that
    branch stands for whatever unpickling its bytes leads to, and no
    property is stated about it. *)
Definition torch_load (p : string) (fs : gmap string file)
  : result (gmap string V) :=
  match fs !! p with
  | None => Raise IOError
  | Some FDir => Raise IOError
  | Some (FText _) => Raise UnpicklingError
  | Some (FCkpt d) => Ok d
  end.

End Fs.
Arguments file V : clear implicits.
End Fs.

(** ** Python dictionaries *)

Module PyDict.
Section PyDict.
Context {V : Type}.

(** [d.update(other)]: the entries of [other] win. *)
Definition update (d other : gmap string V) : gmap string V := other ∪ d.

(** [d.pop(k)]: the value and the dictionary without the key; a missing
    key raises [KeyError]. *)
Definition pop (k : string) (d : gmap string V)
  : result (V * gmap string V) :=
  match d !! k with
  | Some v => Ok (v, delete k d)
  | None => Raise KeyError
  end.

(** [k in d] *)
Definition mem (k : string) (d : gmap string V) : bool :=
  match d !! k with
  | Some _ => true
  | None => false
  end.

End PyDict.
End PyDict.

(** ** [shaper/utils/checkpoint.py] *)

Module Checkpoint.
Section Checkpoint.
Context {V : Type}.
Variable writable : string -> bool.

(** A [Checkpointer] object.  The model, the optimizer and the scheduler
    are represented by their current state (what [state_dict()] returns
    and [load_state_dict] replaces); [optimizer] and [scheduler] may be
    [None].  An optimizer or scheduler object is truthy. *)
Record Checkpointer : Type := mkCheckpointer {
  model : V;
  optimizer : option V;
  scheduler : option V;
  save_dir : string;
}.

Definition default_tag_file : string := "last_checkpoint".

(** [tag_last_checkpoint(self, last_filename, tag_file)] *)
Definition tag_last_checkpoint (self : Checkpointer)
    (last_filename tag_file : string) (fs : gmap string (Fs.file V))
  : result (gmap string (Fs.file V)) :=
  let save_file := Posixpath.join (save_dir self) tag_file in
  let last_filename :=
    if negb (Posixpath.isabs last_filename)
    then Posixpath.basename last_filename
    else last_filename in
  Fs.write_text writable save_file last_filename fs.

(** [get_checkpoint_file(self, tag_file)]: only [IOError] is caught. *)
Definition get_checkpoint_file (self : Checkpointer) (tag_file : string)
    (fs : gmap string (Fs.file V)) : result string :=
  let save_file := Posixpath.join (save_dir self) tag_file in
  match Fs.read_text save_file fs with
  | Ok txt =>
      let last_saved := PyStr.strip txt in
      Ok (if negb (Posixpath.isabs last_saved)
          then Posixpath.join (save_dir self) last_saved
          else last_saved)
  | Raise IOError => Ok ""
  | Raise e => Raise e
  end.

(** [has_checkpoint(self, tag_file)] *)
Definition has_checkpoint (self : Checkpointer) (tag_file : string)
    (fs : gmap string (Fs.file V)) : bool :=
  let save_file := Posixpath.join (save_dir self) tag_file in
  Fs.exists_ save_file fs.

(** [_load_file(self, f)] *)
Definition _load_file (f : string) (fs : gmap string (Fs.file V))
  : result (gmap string V) :=
  Fs.torch_load f fs.

(** The dictionary [save] builds before writing it. *)
Definition save_data (self : Checkpointer) (kwargs : gmap string V)
  : gmap string V :=
  let data : gmap string V := ∅ in
  let data := <["model" := model self]> data in
  let data :=
    match optimizer self with
    | Some o => <["optimizer" := o]> data
    | None => data
    end in
  let data :=
    match scheduler self with
    | Some sc => <["scheduler" := sc]> data
    | None => data
    end in
  PyDict.update data kwargs.

(** [save(self, name, tag_file, **kwargs)] *)
Definition save (self : Checkpointer) (name tag_file : string)
    (kwargs : gmap string V) (fs : gmap string (Fs.file V))
  : result (gmap string (Fs.file V)) :=
  if negb (PyStr.truthy (save_dir self)) then Ok fs
  else
    let data := save_data self kwargs in
    let save_file := Posixpath.join (save_dir self) (name ++ ".pth") in
    fs <-- Fs.torch_save writable data save_file fs ;;
    tag_last_checkpoint self save_file tag_file fs.


(** [load(self, f, resume, tag_file)]: the returned dictionary and the
    checkpointer with the states it has loaded. *)
Definition load (self : Checkpointer) (f : option string) (resume : bool)
    (tag_file : string) (fs : gmap string (Fs.file V))
  : result (gmap string V * Checkpointer) :=
  f <-- (if resume && has_checkpoint self tag_file fs
         then p <-- get_checkpoint_file self tag_file fs ;; Ok (Some p)
         else Ok f) ;;
  match f with
  | None => Ok (∅, self)
  | Some p =>
      if negb (PyStr.truthy p) then Ok (∅, self)
      else
        checkpoint <-- _load_file p fs ;;
        mc <-- PyDict.pop "model" checkpoint ;;
        let self := mkCheckpointer mc.1 (optimizer self) (scheduler self)
                      (save_dir self) in
        let checkpoint := mc.2 in
        oc <-- (match optimizer self with
                | Some _ =>
                    if PyDict.mem "optimizer" checkpoint then
                      oc <-- PyDict.pop "optimizer" checkpoint ;;
                      Ok (mkCheckpointer (model self) (Some oc.1)
                            (scheduler self) (save_dir self), oc.2)
                    else Ok (self, checkpoint)
                | None => Ok (self, checkpoint)
                end) ;;
        let self := oc.1 in
        let checkpoint := oc.2 in
        sc <-- (match scheduler self with
                | Some _ =>
                    if PyDict.mem "scheduler" checkpoint then
                      sc <-- PyDict.pop "scheduler" checkpoint ;;
                      Ok (mkCheckpointer (model self) (optimizer self)
                            (Some sc.1) (save_dir self), sc.2)
                    else Ok (self, checkpoint)
                | None => Ok (self, checkpoint)
                end) ;;
        Ok (sc.2, sc.1)
  end.

End Checkpoint.
Arguments Checkpointer V : clear implicits.
End Checkpoint.

(** ** The configuration tree

    The keys of a configuration tree that the modelled functions read.
    [DATALOADER_DROP_LAST] is [None] when the tree does not define the
    key (reading it then raises [AttributeError]), as is the case for the
    tree of [shaper/config/defaults.py].  The record describes the trees
    in which [TEST.AUGMENTATION] is defined: [defaults.py] does not
    assign that key either, so that its own tree, on which
    [build_transform(cfg, False)] raises [AttributeError], is not a
    value of this type. *)

Module Config.
Section Config.
(** An element of an augmentation entry given as a list or a tuple. *)
Context {arg : Type}.

(** An entry of [TRAIN.AUGMENTATION] / [TEST.AUGMENTATION]: a name, or a
    sequence of a name followed by arguments. *)
Inductive aug : Type :=
| AugName (name : string)
| AugSeq (items : list arg).

Record cfg : Type := mkCfg {
  MODEL_TYPE : string;
  INPUT_NUM_POINTS : Z;
  DATASET_TYPE : string;
  DATASET_ROOT_DIR : string;
  DATASET_TRAIN : list string;
  DATASET_VAL : list string;
  DATASET_TEST : list string;
  DATALOADER_NUM_WORKERS : Z;
  DATALOADER_DROP_LAST : option bool;
  TRAIN_BATCH_SIZE : Z;
  TRAIN_AUGMENTATION : list aug;
  TEST_BATCH_SIZE : Z;
  TEST_AUGMENTATION : list aug;
}.

End Config.
Arguments aug arg : clear implicits.
Arguments cfg arg : clear implicits.
End Config.

(** ** [shaper/models/build.py] *)

Module Models.
Section Models.
Context {arg : Type}.
(** What a builder returns (the model with its loss and metric). *)
Context {built : Type}.

(** A builder takes the configuration and may raise. *)
Local Abbreviation builder := (Config.cfg arg -> result built).

(** The builders imported from the model modules. *)
Variables build_pointnet build_dgcnn build_pointnet2ssg
          build_pointnet2msg build_pns2cnn build_s2cnn : builder.

(** The registry as the module defines it. *)
Definition _MODEL_BUILDERS : gmap string builder :=
  <["POINTNET" := build_pointnet]>
 (<["DGCNN" := build_dgcnn]>
 (<["PN2SSG" := build_pointnet2ssg]>
 (<["PN2MSG" := build_pointnet2msg]>
 (<["PNS2CNN" := build_pns2cnn]>
 (<["S2CNN" := build_s2cnn]> ∅))))).

(** [build_model(cfg)], for the registry in state [reg]. *)
Definition build_model (reg : gmap string builder) (c : Config.cfg arg)
  : result built :=
  match reg !! Config.MODEL_TYPE c with
  | Some b => b c
  | None => Raise KeyError
  end.

(** [register_model_builder(name, builder)]: the outcome and the registry
    afterwards. *)
Definition register_model_builder (name : string) (b : builder)
    (reg : gmap string builder) : result unit * gmap string builder :=
  if PyDict.mem name reg then (Raise KeyError, reg)
  else (Ok tt, <[name := b]> reg).

End Models.
End Models.

(** ** [shaper/data/build.py] *)

Module Data.
Section Data.
Context {arg transform dataset : Type}.

(** [str] elements of an augmentation sequence. *)
Variable as_str : arg -> option string.

(** The transform module [T]: [getattr(T, name)] is a constructor taking
    positional arguments, or is missing. *)
Variable T_getattr : string -> option (list arg -> result transform).
Variables PointCloudToTensor PointCloudTensorTranspose : transform.
Variable Compose : list transform -> transform.

(** The arguments the dataset constructors of [D] are called with. *)
Record dataset_args : Type := mkDatasetArgs {
  root_dir : string;
  dataset_names : list string;
  shuffle_points : bool;
  num_points : Z;
  transform_ : transform;
}.

Variables ModelNetH5 ShapeNetH5 KITTI : dataset_args -> result dataset.

(** A [DataLoader], by the arguments it was constructed with. *)
Record DataLoader : Type := mkDataLoader {
  dataset_ : dataset;
  batch_size : Z;
  shuffle : bool;
  drop_last : bool;
  num_workers : Z;
}.

(** The argument checks of the library's [DataLoader] constructor. *)
Variable DataLoader_check : DataLoader -> result unit.

(** One step of the augmentation loop of [build_transform]. *)
Definition build_aug (a : Config.aug arg) : result transform :=
  match a with
  | Config.AugSeq items =>
      match items with
      | [] => Raise IndexError
      | a0 :: rest =>
          match as_str a0 with
          | None => Raise TypeError
          | Some name =>
              match T_getattr name with
              | None => Raise AttributeError
              | Some ctor => ctor rest
              end
          end
      end
  | Config.AugName name =>
      match T_getattr name with
      | None => Raise AttributeError
      | Some ctor => ctor []
      end
  end.

Fixpoint build_augs (l : list (Config.aug arg)) : result (list transform) :=
  match l with
  | [] => Ok []
  | a :: r =>
      t <-- build_aug a ;;
      ts <-- build_augs r ;;
      Ok (t :: ts)
  end.

(** [build_transform(cfg, is_train)] *)
Definition build_transform (c : Config.cfg arg) (is_train : bool)
  : result transform :=
  let augs := if is_train then Config.TRAIN_AUGMENTATION c
              else Config.TEST_AUGMENTATION c in
  ts <-- build_augs augs ;;
  Ok (Compose ([PointCloudToTensor] ++ ts ++ [PointCloudTensorTranspose])).

(** [build_dataset(cfg, mode)] *)
Definition build_dataset (c : Config.cfg arg) (mode : string)
  : result dataset :=
  let dataset_names :=
    if String.eqb mode "train" then Config.DATASET_TRAIN c
    else if String.eqb mode "val" then Config.DATASET_VAL c
    else Config.DATASET_TEST c in
  let is_train := String.eqb mode "train" in
  transform <-- build_transform c is_train ;;
  let args := mkDatasetArgs (Config.DATASET_ROOT_DIR c) dataset_names false
                (Config.INPUT_NUM_POINTS c) transform in
  if String.eqb (Config.DATASET_TYPE c) "ModelNetH5" then ModelNetH5 args
  else if String.eqb (Config.DATASET_TYPE c) "ShapeNetH5" then ShapeNetH5 args
  else if String.eqb (Config.DATASET_TYPE c) "KITTI" then KITTI args
  else Raise NotImplementedError.

Definition modes : list string := ["train"; "val"; "test"].

(** [build_dataloader(cfg, mode)] *)
Definition build_dataloader (c : Config.cfg arg) (mode : string)
  : result DataLoader :=
  if negb (existsb (String.eqb mode) modes) then Raise AssertionError
  else
    let batch_size :=
      if String.eqb mode "train" then Config.TRAIN_BATCH_SIZE c
      else Config.TEST_BATCH_SIZE c in
    let is_train := String.eqb mode "train" in
    dataset <-- build_dataset c mode ;;
    drop_last <-- (if is_train then
                     match Config.DATALOADER_DROP_LAST c with
                     | Some b => Ok b
                     | None => Raise AttributeError
                     end
                   else Ok false) ;;
    let dl := mkDataLoader dataset batch_size is_train drop_last
                (Config.DATALOADER_NUM_WORKERS c) in
    _ <-- DataLoader_check dl ;;
    Ok dl.

End Data.
End Data.

(** ** [shaper/models/metric.py]

    A score is a rational number (the finite floats with their order; NaN
    is outside the model).  A 2-D tensor is the list of its rows, a 1-D
    tensor a list. *)

Module Metric.

Definition Qltb (a b : Q) : bool := negb (Qle_bool b a).

(** The scan behind [argmax] along a row: the running best value and its
    index, replaced on a strictly greater value only, so that the first
    maximal position wins. *)
Fixpoint argmax_from (best : Q) (besti i : nat) (row : list Q) : nat :=
  match row with
  | [] => besti
  | x :: r =>
      if Qltb best x then argmax_from x i (S i) r
      else argmax_from best besti (S i) r
  end.

(** [row.argmax()]; an empty row is an error. *)
Definition argmax_row (row : list Q) : result nat :=
  match row with
  | [] => Raise IndexError
  | x :: r => Ok (argmax_from x 0 1 r)
  end.

(** [t.argmax(1)] *)
Fixpoint argmax1 (t : list (list Q)) : result (list Z) :=
  match t with
  | [] => Ok []
  | row :: rest =>
      j <-- argmax_row row ;;
      js <-- argmax1 rest ;;
      Ok (Z.of_nat j :: js)
  end.

Fixpoint eq_zip (a b : list Z) : list bool :=
  match a, b with
  | x :: a', y :: b' => Z.eqb x y :: eq_zip a' b'
  | _, _ => []
  end.

(** [a.eq(b)] on 1-D tensors, with broadcasting of a one-element
    operand; other size mismatches are an error. *)
Definition eq (a b : list Z) : result (list bool) :=
  if Nat.eqb (length a) (length b) then Ok (eq_zip a b)
  else
    match a, b with
    | _, [y] => Ok (map (fun x => Z.eqb x y) a)
    | [x], _ => Ok (map (fun y => Z.eqb x y) b)
    | _, _ => Raise RuntimeError
    end.

(** [t.float()] on a boolean tensor. *)
Definition float (t : list bool) : list Q :=
  map (fun b : bool => if b then 1%Q else 0%Q) t.

(** [d[k]] *)
Definition getitem {A} (d : gmap string A) (k : string) : result A :=
  match d !! k with
  | Some v => Ok v
  | None => Raise KeyError
  end.

(** [ClsAccuracy.forward(self, preds, labels)] *)
Definition ClsAccuracy_forward (preds : gmap string (list (list Q)))
    (labels : gmap string (list Z)) : result (gmap string (list Q)) :=
  cls_logit <-- getitem preds "cls_logit" ;;
  cls_label <-- getitem labels "cls_label" ;;
  pred_label <-- argmax1 cls_logit ;;
  cls_acc <-- (b <-- eq pred_label cls_label ;; Ok (float b)) ;;
  Ok (<["cls_acc" := cls_acc]> ∅).

End Metric.

(** ** [shaper_few_shot/data/datasets/shapenet_fewshot.py] *)

Module FewShot.
Section FewShot.
(** An element of the loaded array along its first axis: a row of a 2-D
    array, a number of a 1-D array. *)
Context {point : Type}.
(** The state of the random number generator. *)
Context {rng : Type}.

(** [np.random.permutation(x)] for a 1-D index array [x] (for an integer
    [n], of [np.arange(n)]): a permutation and the next generator
    state. *)
Variable np_random_permutation : rng -> list nat -> list nat * rng.

(** [np.loadtxt(fname).astype(np.float32)], as the list of the elements
    along the first axis.  A file of two or more lines loads as the list
    of its rows; [np.loadtxt] squeezes a file of a single line to a 1-D
    array, whose elements are the numbers of that line.  The 0-d array
    of a file that holds a single number, on which [len(points)] raises
    [TypeError], is outside the model. *)
Variable _load_pts : string -> result (list point).

Record meta : Type := mkMeta {
  token : string;
  class : string;
  pts_path : string;
}.

(** The attributes of a [ShapeNetFewShot] that [__getitem__] reads.  A
    transform is a function on point arrays that returns; the properties
    of the result of [__getitem__] are stated for [transform = None]. *)
Record ShapeNetFewShot : Type := mkShapeNetFewShot {
  num_points : Z;
  shuffle_points : bool;
  transform : option (list point -> list point);
  classes_to_ind_map : gmap string nat;
  meta_data : list meta;
}.

Record item : Type := mkItem {
  points : list point;
  cls_labels : nat;
}.

(** [l[index]] for a Python list: negative indices count from the end. *)
Definition list_getitem {A} (l : list A) (index : Z) : result A :=
  let n := Z.of_nat (length l) in
  let i := if (index <? 0)%Z then (index + n)%Z else index in
  if (i <? 0)%Z || (n <=? i)%Z then Raise IndexError
  else
    match l !! Z.to_nat i with
    | Some x => Ok x
    | None => Raise IndexError
    end.

(** [points[choice]] for an index array [choice]. *)
Fixpoint take_rows (pts : list point) (choice : list nat)
  : result (list point) :=
  match choice with
  | [] => Ok []
  | i :: r =>
      match pts !! i with
      | None => Raise IndexError
      | Some p => ps <-- take_rows pts r ;; Ok (p :: ps)
      end
  end.

(** The index array [__getitem__] selects the rows with. *)
Definition make_choice (self : ShapeNetFewShot) (len : nat) (g : rng)
  : list nat * rng :=
  let '(choice, g) :=
    if shuffle_points self then np_random_permutation g (seq 0 len)
    else (seq 0 len, g) in
  if (0 <? num_points self)%Z then
    if (num_points self <=? Z.of_nat len)%Z then
      (firstn (Z.to_nat (num_points self)) choice, g)
    else
      let num_pad := (num_points self - Z.of_nat len)%Z in
      let '(shuffled, g) := np_random_permutation g choice in
      let pad := firstn (Z.to_nat num_pad) shuffled in
      ((choice ++ pad)%list, g)
  else (choice, g).

(** [__getitem__(self, index)] *)
Definition __getitem__ (self : ShapeNetFewShot) (index : Z) (g : rng)
  : result (item * rng) :=
  md <-- list_getitem (meta_data self) index ;;
  let class_name := class md in
  class_ind <-- Metric.getitem (classes_to_ind_map self) class_name ;;
  pts <-- _load_pts (pts_path md) ;;
  let '(choice, g) := make_choice self (length pts) g in
  pts <-- take_rows pts choice ;;
  let pts := match transform self with
             | Some t => t pts
             | None => pts
             end in
  Ok (mkItem pts class_ind, g).

End FewShot.
End FewShot.

(** * Properties *)

(** ** Strings and paths *)

Module PathFacts.
Import PyStr Posixpath.

Lemma app_nil_l (b : string) : "" ++ b = b.
Proof. reflexivity. Qed.

Lemma app_cons (c : ascii) (a b : string) :
  String c a ++ b = String c (a ++ b).
Proof. reflexivity. Qed.

Ltac str_simpl := rewrite ?app_cons, ?app_nil_l; simpl.

Lemma append_nil_r (s : string) : s ++ "" = s.
Proof. induction s as [|c s IH]; str_simpl; [reflexivity | by rewrite IH]. Qed.

Lemma append_assoc (a b c : string) : (a ++ b) ++ c = a ++ (b ++ c).
Proof. induction a as [|x a IH]; str_simpl; [reflexivity | by rewrite IH]. Qed.

Lemma contains_app (c : ascii) (a b : string) :
  contains c (a ++ b) = contains c a || contains c b.
Proof.
  induction a as [|x a IH]; str_simpl; [reflexivity |].
  rewrite IH. by rewrite orb_assoc.
Qed.

(** Text without a carriage return is read back as written. *)
Lemma newlines_id (s : string) :
  contains "013"%char s = false -> Fs.newlines s = s.
Proof.
  induction s as [|c s IH]; simpl; [reflexivity |].
  intros H. apply orb_false_iff in H as [Hc Hs].
  rewrite Hc. by rewrite IH.
Qed.

Lemma rstrip_app (a b : string) :
  rstrip b <> "" -> rstrip (a ++ b) = a ++ rstrip b.
Proof.
  intros Hb. induction a as [|x a IH]; str_simpl; [reflexivity |].
  rewrite IH. destruct (a ++ rstrip b) eqn:E; [| reflexivity].
  destruct a; [| discriminate].
  rewrite app_nil_l in E. contradiction.
Qed.

(** Position of the last separator. *)
Lemma rfind_from_spec (c : ascii) (s : string) (i : Z) :
  (0 <= i)%Z ->
  let k := rfind_from c s i in
  (k = (-1)%Z \/ (i <= k)%Z) /\
  contains c (drop (Z.to_nat (k + 1 - i)) s) = false.
Proof.
  revert i. induction s as [|a r IH]; intros i Hi; simpl.
  - split; [by left |]. by destruct (Z.to_nat _).
  - destruct (IH (i + 1)%Z ltac:(lia)) as [Hk Hd].
    destruct (0 <=? rfind_from c r (i + 1))%Z eqn:Hpos.
    + apply Z.leb_le in Hpos.
      destruct Hk as [Hk | Hk]; [lia |].
      split; [right; lia |].
      replace (Z.to_nat (rfind_from c r (i + 1) + 1 - i))
        with (S (Z.to_nat (rfind_from c r (i + 1) + 1 - (i + 1)))) by lia.
      exact Hd.
    + apply Z.leb_gt in Hpos.
      destruct Hk as [Hk | Hk]; [| lia].
      rewrite Hk in Hd.
      replace (Z.to_nat (-1 + 1 - (i + 1))) with 0 in Hd by lia.
      simpl in Hd.
      destruct (Ascii.eqb a c) eqn:Hac.
      * split; [right; lia |].
        replace (Z.to_nat (i + 1 - i)) with 1 by lia. exact Hd.
      * split; [by left |].
        replace (Z.to_nat (-1 + 1 - i)) with 0 by lia.
        simpl. by rewrite Hac, Hd.
Qed.

(** A base name holds no separator, hence is never absolute. *)
Lemma basename_no_sep (p : string) : contains sep (basename p) = false.
Proof.
  unfold basename, rfind.
  destruct (rfind_from_spec sep p 0 ltac:(lia)) as [_ H].
  by rewrite Z.sub_0_r in H.
Qed.

Lemma no_sep_not_abs (s : string) : contains sep s = false -> isabs s = false.
Proof.
  destruct s as [|c r]; simpl; [done |].
  intros H. by apply orb_false_iff in H as [-> _].
Qed.

Lemma rfind_from_absent (c : ascii) (s : string) (i : Z) :
  contains c s = false -> rfind_from c s i = (-1)%Z.
Proof.
  revert i. induction s as [|a r IH]; intros i; simpl; [done |].
  intros H. apply orb_false_iff in H as [Ha Hr].
  by rewrite (IH _ Hr), Ha.
Qed.

Lemma rfind_from_last (c : ascii) (a n : string) (i : Z) :
  (0 <= i)%Z -> contains c n = false ->
  rfind_from c (a ++ String c n) i = (i + Z.of_nat (String.length a))%Z.
Proof.
  revert i. induction a as [|x a IH]; intros i Hi Hn; str_simpl.
  - rewrite (rfind_from_absent _ _ _ Hn). simpl.
    rewrite Ascii.eqb_refl. lia.
  - rewrite (IH (i + 1)%Z ltac:(lia) Hn).
    destruct (0 <=? _)%Z eqn:E; [lia |].
    apply Z.leb_gt in E. lia.
Qed.

Lemma drop_app_length (a b : string) : drop (String.length a) (a ++ b) = b.
Proof. induction a as [|x a IH]; str_simpl; [by destruct b | exact IH]. Qed.

(** The base name of [a/n] is [n] when [n] holds no separator. *)
Lemma basename_app_sep (a n : string) :
  contains sep n = false -> basename (a ++ String sep n) = n.
Proof.
  intros Hn. unfold basename, rfind.
  rewrite (rfind_from_last sep a n 0 ltac:(lia) Hn).
  replace (Z.to_nat (0 + Z.of_nat (String.length a) + 1))
    with (String.length (a ++ String sep "")).
  - replace (a ++ String sep n) with ((a ++ String sep "") ++ n)
      by (rewrite append_assoc; reflexivity).
    apply drop_app_length.
  - clear. induction a as [|x a IH]; str_simpl; [reflexivity |].
    rewrite IH. lia.
Qed.

Lemma basename_no_sep_id (n : string) :
  contains sep n = false -> basename n = n.
Proof.
  intros Hn. unfold basename, rfind.
  by rewrite (rfind_from_absent _ _ _ Hn).
Qed.

Lemma endswith_app_sep (a : string) :
  endswith sep a = true -> exists a', a = a' ++ String sep "".
Proof.
  induction a as [|x a IH]; simpl; [discriminate |].
  destruct a as [|y a'].
  - intros H. apply Ascii.eqb_eq in H as ->. by exists "".
  - intros H. destruct (IH H) as [a'' E]. exists (String x a'').
    rewrite app_cons. by rewrite <- E.
Qed.

Lemma isabs_app (a b : string) : isabs a = true -> isabs (a ++ b) = true.
Proof. by destruct a. Qed.

Lemma length_append (a b : string) :
  String.length (a ++ b) = (String.length a + String.length b)%nat.
Proof.
  induction a as [|x a IH]; [reflexivity |].
  rewrite app_cons. simpl. by rewrite IH.
Qed.

Lemma append_inj_r (a b c : string) : a ++ c = b ++ c -> a = b.
Proof.
  revert b. induction a as [|x a IH]; intros [|y b] H.
  - reflexivity.
  - apply (f_equal String.length) in H.
    rewrite app_nil_l, app_cons in H. simpl in H.
    rewrite length_append in H. lia.
  - apply (f_equal String.length) in H.
    rewrite app_nil_l, app_cons in H. simpl in H.
    rewrite length_append in H. lia.
  - rewrite !app_cons in H. injection H as -> H. by rewrite (IH b H).
Qed.

(** Joining a directory with two different relative names gives two
    different paths. *)
Lemma join_inj (d x y : string) :
  isabs x = false -> isabs y = false -> join d x = join d y -> x = y.
Proof.
  unfold join, isabs. intros -> ->.
  destruct (_ || _); intros H.
  - by apply (inj (String.app d)) in H.
  - apply (inj (String.app d)) in H. by injection H.
Qed.

End PathFacts.

(** ** The checkpointer *)

Module CheckpointFacts.
Import PyStr Posixpath PathFacts Checkpoint.

Section CheckpointFacts.
Context {V : Type}.
Variable writable : string -> bool.

Implicit Types (ck : Checkpointer V) (fs : gmap string (Fs.file V))
               (kwargs : gmap string V).

Lemma open_w_ok (p : string) fs :
  writable p = true -> fs !! p <> Some Fs.FDir ->
  Fs.open_w writable p fs = Ok tt.
Proof.
  intros Hw Hd. unfold Fs.open_w. rewrite Hw.
  destruct (fs !! p) as [[| |]|]; congruence.
Qed.

(** What [save] stores under a key: the entry of [kwargs] if there is
    one, otherwise the state the checkpointer holds for that key. *)
Lemma save_data_lookup ck kwargs (k : string) :
  save_data ck kwargs !! k =
    match kwargs !! k with
    | Some v => Some v
    | None =>
        if decide (k = "model") then Some (model ck)
        else if decide (k = "optimizer") then optimizer ck
        else if decide (k = "scheduler") then scheduler ck
        else None
    end.
Proof.
  unfold save_data, PyDict.update.
  destruct (kwargs !! k) as [v|] eqn:Hk.
  - by apply lookup_union_Some_l.
  - rewrite (lookup_union_r _ _ _ Hk).
    destruct (scheduler ck) as [sc|], (optimizer ck) as [o|];
      repeat case_decide; subst; simplify_map_eq; done.
Qed.

(** The name [tag_last_checkpoint] writes for [last_filename]. *)
Definition stored_name (last_filename : string) : string :=
  if negb (isabs last_filename) then basename last_filename
  else last_filename.

(** The path [get_checkpoint_file] makes of the text it has read. *)
Definition resolve ck (txt : string) : string :=
  let last_saved := strip txt in
  if negb (isabs last_saved) then join (save_dir ck) last_saved
  else last_saved.

Lemma tag_last_checkpoint_ok ck (fn tag_file : string) fs :
  writable (join (save_dir ck) tag_file) = true ->
  fs !! join (save_dir ck) tag_file <> Some Fs.FDir ->
  tag_last_checkpoint writable ck fn tag_file fs =
    Ok (<[join (save_dir ck) tag_file := Fs.FText (stored_name fn)]> fs).
Proof.
  intros Hw Hd. unfold tag_last_checkpoint, Fs.write_text.
  by rewrite (open_w_ok _ _ Hw Hd).
Qed.

Lemma get_checkpoint_file_text ck (tag_file txt : string) fs :
  fs !! join (save_dir ck) tag_file = Some (Fs.FText txt) ->
  get_checkpoint_file ck tag_file fs = Ok (resolve ck (Fs.newlines txt)).
Proof.
  intros H. unfold get_checkpoint_file, Fs.read_text. by rewrite H.
Qed.

Lemma stored_name_resolve ck (fn : string) :
  strip (Fs.newlines (stored_name fn)) = stored_name fn ->
  resolve ck (Fs.newlines (stored_name fn)) =
    if isabs fn then fn else join (save_dir ck) (basename fn).
Proof.
  intros H. unfold resolve. rewrite H. unfold stored_name.
  destruct (isabs fn) eqn:Habs; simpl.
  - by rewrite Habs.
  - by rewrite (no_sep_not_abs _ (basename_no_sep fn)).
Qed.

Lemma lstrip_abs (s : string) : isabs s = true -> lstrip s = s.
Proof.
  destruct s as [|c r]; simpl; [done |].
  intros H. apply Ascii.eqb_eq in H. by subst c.
Qed.

Lemma rstrip_pth (a : string) : rstrip (a ++ ".pth") = a ++ ".pth".
Proof. by rewrite rstrip_app. Qed.

(** [s] begins with a whitespace character. *)
Definition leading_space (s : string) : bool :=
  match s with
  | String c _ => isspace c
  | EmptyString => false
  end.

(** Text with no carriage return and no whitespace at either end is read
    back and stripped to itself. *)
Lemma strip_newlines_fixed (w : string) :
  contains "013"%char w = false -> leading_space w = false ->
  rstrip w = w -> strip (Fs.newlines w) = w.
Proof.
  intros Hcr Hsp Hr. rewrite (newlines_id _ Hcr). unfold strip.
  destruct w as [|c r]; [reflexivity |].
  simpl in Hsp. simpl lstrip. rewrite Hsp. exact Hr.
Qed.

Lemma lstrip_pth (name : string) :
  leading_space name = false -> lstrip (name ++ ".pth") = name ++ ".pth".
Proof.
  destruct name as [|c r]; [done |].
  simpl. intros H. rewrite app_cons. simpl. by rewrite H.
Qed.

(** The two shapes of [join d x] for a relative [x] and a non-empty
    [d]: in both, [x] follows a separator. *)
Lemma join_relative (d x : string) :
  d <> "" -> isabs x = false ->
  exists pre, join d x = pre ++ String sep x /\
              join d x = d ++ drop (String.length d) (join d x).
Proof.
  intros Hd Hx. unfold join. unfold isabs in Hx. rewrite Hx.
  destruct d as [|c d]; [done |].
  change (negb (truthy (String c d)) || endswith sep (String c d))
    with (endswith sep (String c d)).
  destruct (endswith sep (String c d)) eqn:He.
  - destruct (endswith_app_sep _ He) as [d' E]. exists d'.
    split.
    + rewrite E, append_assoc. reflexivity.
    + by rewrite drop_app_length.
  - exists (String c d). split; [done |]. by rewrite drop_app_length.
Qed.

Lemma isabs_app_l (d y : string) : d <> "" -> isabs (d ++ y) = isabs d.
Proof. by destruct d. Qed.

(** The name [save] tags a checkpoint with leads
    [get_checkpoint_file] back to the file it has written. *)
Lemma save_file_resolves ck (name : string) :
  save_dir ck <> "" ->
  contains sep name = false ->
  contains "013"%char name = false ->
  leading_space name = false ->
  (isabs (save_dir ck) = true -> contains "013"%char (save_dir ck) = false) ->
  let save_file := join (save_dir ck) (name ++ ".pth") in
  resolve ck (Fs.newlines (stored_name save_file)) = save_file.
Proof.
  intros Hd Hsep Hcr Hsp Hdcr save_file.
  assert (Hx : contains sep (name ++ ".pth") = false).
  { rewrite contains_app, Hsep. reflexivity. }
  assert (Hxcr : contains "013"%char (name ++ ".pth") = false).
  { rewrite contains_app, Hcr. reflexivity. }
  pose proof (no_sep_not_abs _ Hx) as Hxabs.
  destruct (join_relative (save_dir ck) _ Hd Hxabs) as (pre & Epre & Ed).
  fold save_file in Epre, Ed.
  assert (Habs : isabs save_file = isabs (save_dir ck)).
  { rewrite Ed. by apply isabs_app_l. }
  unfold resolve, stored_name. rewrite Habs.
  destruct (isabs (save_dir ck)) eqn:Hdabs; simpl.
  - assert (Hsfcr : contains "013"%char save_file = false).
    { subst save_file. unfold join. unfold isabs in Hxabs. rewrite Hxabs.
      destruct (_ || _); rewrite contains_app, (Hdcr eq_refl); simpl;
        [done |]. by rewrite Hxcr. }
    rewrite (newlines_id _ Hsfcr). unfold strip.
    rewrite lstrip_abs by (by rewrite Habs).
    assert (Er : rstrip save_file = save_file).
    { rewrite Epre.
      replace (pre ++ String sep (name ++ ".pth"))
        with ((pre ++ String sep name) ++ ".pth")
        by (rewrite append_assoc; reflexivity).
      apply rstrip_pth. }
    rewrite Er. by rewrite Habs.
  - assert (Eb : basename save_file = name ++ ".pth").
    { rewrite Epre. by apply basename_app_sep. }
    rewrite Eb, (newlines_id _ Hxcr). unfold strip.
    rewrite (lstrip_pth _ Hsp), rstrip_pth, Hxabs. reflexivity.
Qed.

Lemma endswith_app (c : ascii) (a b : string) :
  b <> "" -> endswith c (a ++ b) = endswith c b.
Proof.
  intros Hb. induction a as [|x a IH]; [done |].
  rewrite app_cons. simpl. rewrite IH.
  destruct (a ++ b) eqn:E; [| done].
  destruct a; [by rewrite app_nil_l in E | discriminate].
Qed.

(** A checkpoint file is never the default tag file. *)
Lemma save_file_not_tag (d name : string) :
  join d (name ++ ".pth") <> join d default_tag_file.
Proof.
  intros E.
  assert (H1 : endswith "h" (join d (name ++ ".pth")) = true).
  { unfold join. destruct (startswith _ _); [| destruct (_ || _)].
    - by rewrite endswith_app.
    - rewrite <- append_assoc. by rewrite endswith_app.
    - replace (d ++ String sep (name ++ ".pth"))
        with ((d ++ String sep name) ++ ".pth")
        by (rewrite append_assoc; reflexivity).
      by rewrite endswith_app. }
  rewrite E in H1. unfold join in H1. simpl startswith in H1.
  destruct (_ || _); rewrite endswith_app in H1; done.
Qed.

Lemma join_truthy (d x : string) : d <> "" -> truthy (join d x) = true \/ isabs x = true.
Proof.
  intros Hd. unfold join, isabs. destruct (startswith sep x); [by right |].
  left. destruct d; [done |]. by destruct (_ || _).
Qed.

(** What [save] leaves in the store when both of its writes go
    through. *)
Lemma save_ok ck (name tag_file : string) kwargs fs :
  let save_file := join (save_dir ck) (name ++ ".pth") in
  let tag_path := join (save_dir ck) tag_file in
  save_dir ck <> "" ->
  writable save_file = true -> fs !! save_file <> Some Fs.FDir ->
  writable tag_path = true -> fs !! tag_path <> Some Fs.FDir ->
  tag_path <> save_file ->
  save writable ck name tag_file kwargs fs =
    Ok (<[tag_path := Fs.FText (stored_name save_file)]>
          (<[save_file := Fs.FCkpt (save_data ck kwargs)]> fs)).
Proof.
  intros save_file tag_path Hd Hw1 Hf1 Hw2 Hf2 Hne.
  assert (Ht : negb (truthy (save_dir ck)) = false)
    by (by destruct (save_dir ck)).
  unfold save. rewrite Ht. fold save_file. unfold Fs.torch_save.
  rewrite (open_w_ok _ _ Hw1 Hf1). cbn [rbind].
  rewrite tag_last_checkpoint_ok; [reflexivity | exact Hw2 |].
  fold tag_path. by rewrite lookup_insert_ne.
Qed.

(** Two different names without ['/'] give two different paths under
    [save_dir]. *)
Lemma join_names_ne (d x y : string) :
  contains sep x = false -> contains sep y = false -> x <> y ->
  join d x <> join d y.
Proof.
  intros Hx Hy Hne E. apply Hne.
  by apply (join_inj d); [apply no_sep_not_abs | apply no_sep_not_abs |].
Qed.

(** C1 (amended).  With a non-empty [save_dir], a checkpoint name and a
    tag file name that contain no ['/'], the tag file name being other
    than [name + ".pth"], and both files writable, [save] stores at
    [join(save_dir, name + ".pth")] a dictionary that has the key
    "model", has the key "optimizer" exactly when the optimizer is not
    [None] or [kwargs] has that key, has the key "scheduler" exactly
    when the scheduler is not [None] or [kwargs] has that key, and
    includes every entry of [kwargs]; the tag file then holds the path of
    that file when it is absolute and its base name otherwise, and every
    other entry of [save_dir] is as it was. *)
Theorem save_writes_checkpoint ck (name tag_file : string) kwargs fs :
  let save_file := join (save_dir ck) (name ++ ".pth") in
  let tag_path := join (save_dir ck) tag_file in
  save_dir ck <> "" ->
  contains sep name = false -> contains sep tag_file = false ->
  tag_file <> name ++ ".pth" ->
  writable save_file = true -> fs !! save_file <> Some Fs.FDir ->
  writable tag_path = true -> fs !! tag_path <> Some Fs.FDir ->
  exists fs' data,
    save writable ck name tag_file kwargs fs = Ok fs' /\
    fs' !! save_file = Some (Fs.FCkpt data) /\
    is_Some (data !! "model") /\
    (is_Some (data !! "optimizer") <->
       optimizer ck <> None \/ is_Some (kwargs !! "optimizer")) /\
    (is_Some (data !! "scheduler") <->
       scheduler ck <> None \/ is_Some (kwargs !! "scheduler")) /\
    kwargs ⊆ data /\
    fs' !! tag_path =
      Some (Fs.FText (if isabs save_file then save_file
                      else basename save_file)) /\
    (forall q, contains sep q = false ->
               q <> name ++ ".pth" -> q <> tag_file ->
               fs' !! join (save_dir ck) q = fs !! join (save_dir ck) q).
Proof.
  intros save_file tag_path. subst save_file tag_path.
  intros Hd Hname Htag Hdiff Hw1 Hf1 Hw2 Hf2.
  assert (Hpth : contains sep (name ++ ".pth") = false)
    by (by rewrite contains_app, Hname).
  assert (Hne : join (save_dir ck) tag_file
                <> join (save_dir ck) (name ++ ".pth"))
    by (by apply join_names_ne).
  eexists _, (save_data ck kwargs).
  split; [by apply save_ok |].
  split; [by rewrite lookup_insert_ne, lookup_insert_eq |].
  split.
  { rewrite save_data_lookup. destruct (kwargs !! "model"); eauto. }
  split.
  { rewrite save_data_lookup.
    destruct (kwargs !! "optimizer") as [v|], (optimizer ck) as [o|]; simpl;
      split; eauto; try (intros _; left; congruence);
      intros [H | H]; [congruence | exact H]. }
  split.
  { rewrite save_data_lookup.
    destruct (kwargs !! "scheduler") as [v|], (scheduler ck) as [o|]; simpl;
      split; eauto; try (intros _; left; congruence);
      intros [H | H]; [congruence | exact H]. }
  split.
  { unfold save_data, PyDict.update. apply map_union_subseteq_l. }
  split.
  { rewrite lookup_insert_eq. unfold stored_name.
    by destruct (isabs _). }
  intros q Hq Hq1 Hq2.
  rewrite !lookup_insert_ne; [done | |].
  - apply join_names_ne; done.
  - apply join_names_ne; done.
Qed.

(** C2 (amended).  When the tag file can be written and the name stored
    in it ([fn] if absolute, its base name otherwise) is left unchanged
    by newline translation and whitespace stripping, writing the tag and
    reading it back yields [fn] for an absolute [fn] and
    [join(save_dir, basename(fn))] for a relative one. *)
Theorem tag_then_get_checkpoint_file ck (fn tag_file : string) fs :
  writable (join (save_dir ck) tag_file) = true ->
  fs !! join (save_dir ck) tag_file <> Some Fs.FDir ->
  strip (Fs.newlines (stored_name fn)) = stored_name fn ->
  exists fs',
    tag_last_checkpoint writable ck fn tag_file fs = Ok fs' /\
    get_checkpoint_file ck tag_file fs' =
      Ok (if isabs fn then fn else join (save_dir ck) (basename fn)).
Proof.
  intros Hw Hd Hfix. eexists. split.
  - by apply tag_last_checkpoint_ok.
  - rewrite (get_checkpoint_file_text ck tag_file (stored_name fn)).
    + by rewrite stored_name_resolve.
    + apply lookup_insert_eq.
Qed.


(** C10.  With an empty [save_dir], [save] returns without touching the
    store. *)
Theorem save_empty_dir_noop ck (name tag_file : string) kwargs fs :
  save_dir ck = "" -> save writable ck name tag_file kwargs fs = Ok fs.
Proof. intros H. unfold save. by rewrite H. Qed.

(** Taking the three state entries out of what [save] stored leaves
    the extra data. *)
Lemma save_data_rest ck kwargs :
  kwargs !! "model" = None -> kwargs !! "optimizer" = None ->
  kwargs !! "scheduler" = None ->
  delete "scheduler" (delete "optimizer" (delete "model" (save_data ck kwargs)))
    = kwargs.
Proof.
  intros Hm Ho Hs. apply map_eq. intros k.
  destruct (decide (k = "scheduler")) as [->|Hks];
    [by rewrite lookup_delete_eq |].
  rewrite lookup_delete_ne by done.
  destruct (decide (k = "optimizer")) as [->|Hko];
    [by rewrite lookup_delete_eq |].
  rewrite lookup_delete_ne by done.
  destruct (decide (k = "model")) as [->|Hkm];
    [by rewrite lookup_delete_eq |].
  rewrite lookup_delete_ne by done.
  rewrite save_data_lookup. destruct (kwargs !! k); [done |].
  by repeat case_decide.
Qed.

(** Loading a file that holds what [save] stored. *)
Lemma load_saved ck kwargs (f : option string) (tag_file p : string) fs :
  has_checkpoint ck tag_file fs = true ->
  get_checkpoint_file ck tag_file fs = Ok p ->
  truthy p = true ->
  fs !! p = Some (Fs.FCkpt (save_data ck kwargs)) ->
  optimizer ck <> None -> scheduler ck <> None ->
  kwargs !! "model" = None -> kwargs !! "optimizer" = None ->
  kwargs !! "scheduler" = None ->
  load ck f true tag_file fs = Ok (kwargs, ck).
Proof.
  intros Hhas Hget Hp Hfile Hopt Hsch Hm Ho Hs.
  destruct ck as [m [o|] [sc|] d]; try done. clear Hopt Hsch.
  set (ck := mkCheckpointer m (Some o) (Some sc) d) in *.
  pose proof (save_data_rest ck kwargs Hm Ho Hs) as Hrest.
  pose proof (save_data_lookup ck kwargs "model") as Lm.
  pose proof (save_data_lookup ck kwargs "optimizer") as Lo.
  pose proof (save_data_lookup ck kwargs "scheduler") as Ls.
  rewrite Hm in Lm. rewrite Ho in Lo. rewrite Hs in Ls.
  simpl in Lm, Lo, Ls. subst ck.
  unfold load. rewrite Hhas, Hget. cbn [andb rbind]. rewrite Hp.
  cbn [negb]. unfold _load_file, Fs.torch_load. rewrite Hfile.
  cbn [rbind]. unfold PyDict.pop at 1. rewrite Lm. cbn [rbind fst snd].
  cbn [optimizer scheduler model save_dir].
  unfold PyDict.mem, PyDict.pop.
  rewrite (lookup_delete_ne _ "model" "optimizer") by done. rewrite Lo.
  cbn [rbind fst snd optimizer scheduler model save_dir].
  rewrite (lookup_delete_ne _ "optimizer" "scheduler") by done.
  rewrite (lookup_delete_ne _ "model" "scheduler") by done. rewrite Ls.
  cbn [rbind fst snd optimizer scheduler model save_dir].
  by rewrite Hrest.
Qed.

(** C4 (amended).  Let the optimizer and the scheduler be non-[None],
    [save_dir] non-empty, the keys of [kwargs] avoid "model", "optimizer"
    and "scheduler", and [name] hold no '/', no carriage return and no
    leading whitespace (and an absolute [save_dir] no carriage return).
    If the checkpoint file and the tag file can be written, then
    [save(name, **kwargs)] succeeds and a following [load(f, resume=True)]
    returns exactly [kwargs], with the states of the checkpointer as they
    were saved. *)
Theorem load_after_save ck (name : string) kwargs (f : option string) fs :
  let save_file := join (save_dir ck) (name ++ ".pth") in
  let tag_path := join (save_dir ck) default_tag_file in
  optimizer ck <> None -> scheduler ck <> None ->
  kwargs !! "model" = None -> kwargs !! "optimizer" = None ->
  kwargs !! "scheduler" = None ->
  save_dir ck <> "" ->
  contains sep name = false ->
  contains "013"%char name = false ->
  leading_space name = false ->
  (isabs (save_dir ck) = true -> contains "013"%char (save_dir ck) = false) ->
  writable save_file = true -> fs !! save_file <> Some Fs.FDir ->
  writable tag_path = true -> fs !! tag_path <> Some Fs.FDir ->
  exists fs',
    save writable ck name default_tag_file kwargs fs = Ok fs' /\
    load ck f true default_tag_file fs' = Ok (kwargs, ck).
Proof.
  intros save_file tag_path. subst save_file tag_path.
  intros Hopt Hsch Hm Ho Hs Hd Hsep Hcr Hsp Hdcr Hw1 Hf1 Hw2 Hf2.
  pose proof (save_file_not_tag (save_dir ck) name) as Hne.
  eexists. split.
  - apply save_ok; try done; congruence.
  - apply load_saved with (p := join (save_dir ck) (name ++ ".pth"));
      try done.
    + unfold has_checkpoint, Fs.exists_. by rewrite lookup_insert_eq.
    + rewrite (get_checkpoint_file_text ck _ _ _ (lookup_insert_eq _ _ _)).
      by rewrite save_file_resolves.
    + destruct (join_truthy (save_dir ck) (name ++ ".pth") Hd) as [H | H];
        [exact H |].
      rewrite no_sep_not_abs in H; [done |].
      rewrite contains_app, Hsep. reflexivity.
    + rewrite lookup_insert_ne by congruence. apply lookup_insert_eq.
Qed.

End CheckpointFacts.

(** *** Concrete runs *)

Definition always (_ : string) : bool := true.

(** A checkpointer with an optimizer and a scheduler, saving under
    [out]. *)
Definition ck_full : Checkpointer Z :=
  mkCheckpointer 10%Z (Some 20%Z) (Some 30%Z) "out".

(** A checkpointer of a model alone. *)
Definition ck_model_only : Checkpointer Z :=
  mkCheckpointer 10%Z None None "out".

(** A checkpointer constructed with the default [save_dir=""]. *)
Definition ck_no_dir : Checkpointer Z :=
  mkCheckpointer 10%Z (Some 20%Z) (Some 30%Z) "".

Definition kw_epoch : gmap string Z := <["epoch" := 7%Z]> ∅.
Definition kw_optimizer : gmap string Z := <["optimizer" := 5%Z]> ∅.

Local Ltac by_eval :=
  first [ reflexivity
        | vm_compute; reflexivity
        | vm_compute; congruence
        | let H := fresh in intros H; vm_compute in H; congruence ].

Lemma save_writes_checkpoint_witness :
  exists fs',
    save always ck_full "model_001" "last_checkpoint" kw_epoch ∅ = Ok fs' /\
    fs' !! "out/last_checkpoint" = Some (Fs.FText "model_001.pth").
Proof.
  destruct (save_writes_checkpoint always ck_full "model_001"
              "last_checkpoint" kw_epoch ∅)
    as (fs' & data & Hs & _ & _ & _ & _ & _ & Ht & _); try by_eval.
  exists fs'. split; [exact Hs | exact Ht].
Defined.

(** C1 as stated fails: saved with the keyword argument [optimizer=5]
    by a checkpointer whose optimizer is [None], the stored dictionary
    has the key "optimizer". *)
Lemma save_optimizer_key_counterexample :
  exists fs' data,
    save always ck_model_only "m" "last_checkpoint" kw_optimizer ∅ = Ok fs' /\
    fs' !! Posixpath.join "out" ("m" ++ ".pth") = Some (Fs.FCkpt data) /\
    ~ (is_Some (data !! "optimizer") <-> optimizer ck_model_only <> None).
Proof.
  eexists _, _. split; [vm_compute; reflexivity |].
  split; [vm_compute; reflexivity |].
  intros [H _]. apply H; [| reflexivity].
  exists 5%Z. vm_compute. reflexivity.
Qed.

Lemma tag_then_get_checkpoint_file_witness :
  exists fs',
    tag_last_checkpoint always ck_full "runs/a/model_001.pth"
      "last_checkpoint" ∅ = Ok fs' /\
    get_checkpoint_file ck_full "last_checkpoint" fs' =
      Ok "out/model_001.pth".
Proof.
  apply (tag_then_get_checkpoint_file always ck_full
           "runs/a/model_001.pth" "last_checkpoint" ∅); by_eval.
Defined.

(** C2 as stated fails: an absolute file name that ends in a space is
    read back without the space. *)
Lemma tag_then_get_trailing_space_counterexample :
  Posixpath.isabs "/ckpt/model.pth " = true /\
  exists fs',
    tag_last_checkpoint always ck_full "/ckpt/model.pth "
      "last_checkpoint" ∅ = Ok fs' /\
    get_checkpoint_file ck_full "last_checkpoint" fs' = Ok "/ckpt/model.pth" /\
    get_checkpoint_file ck_full "last_checkpoint" fs' <> Ok "/ckpt/model.pth ".
Proof.
  split; [reflexivity |]. eexists. split; [vm_compute; reflexivity |].
  split; [vm_compute; reflexivity |].
  intros H. vm_compute in H. discriminate H.
Qed.



Lemma load_after_save_witness :
  exists fs',
    save always ck_full "model_001" default_tag_file kw_epoch ∅ = Ok fs' /\
    load ck_full None true default_tag_file fs' = Ok (kw_epoch, ck_full).
Proof.
  apply (load_after_save always ck_full "model_001" kw_epoch None ∅);
    by_eval.
Defined.

(** C4 as stated fails: with the default empty [save_dir], [save] writes
    nothing and the following [load] returns the empty dictionary. *)
Lemma load_after_save_no_dir_counterexample :
  optimizer ck_no_dir <> None /\ scheduler ck_no_dir <> None /\
  exists fs',
    save always ck_no_dir "model_001" default_tag_file kw_epoch ∅ = Ok fs' /\
    load ck_no_dir None true default_tag_file fs' = Ok (∅, ck_no_dir) /\
    (∅ : gmap string Z) <> kw_epoch.
Proof.
  split; [discriminate |]. split; [discriminate |].
  exists ∅. split; [reflexivity |]. split; [vm_compute; reflexivity |].
  intros H. apply (f_equal (fun m : gmap string Z => m !! "epoch")) in H.
  vm_compute in H. discriminate H.
Qed.

Lemma save_empty_dir_noop_witness :
  save always ck_no_dir "model_001" "last_checkpoint" kw_epoch
    (<["last_checkpoint" := Fs.FText "old.pth"]> ∅)
  = Ok (<["last_checkpoint" := Fs.FText "old.pth"]> ∅).
Proof.
  apply (save_empty_dir_noop always ck_no_dir "model_001" "last_checkpoint"
           kw_epoch). reflexivity.
Defined.

End CheckpointFacts.

(** ** The model registry *)

Module ModelsFacts.
Import Models.

Local Abbreviation builder arg built := (Config.cfg arg -> result built).

Definition registered_names : list string :=
  ["POINTNET"; "DGCNN"; "PN2SSG"; "PN2MSG"; "PNS2CNN"; "S2CNN"].

Section ModelsFacts.
Context {arg built : Type}.
Variables build_pointnet build_dgcnn build_pointnet2ssg
          build_pointnet2msg build_pns2cnn build_s2cnn
  : builder arg built.

Let initial : gmap string (builder arg built) :=
  _MODEL_BUILDERS build_pointnet build_dgcnn build_pointnet2ssg
    build_pointnet2msg build_pns2cnn build_s2cnn.

(** The keys of the registry the module defines are the six names. *)
Lemma initial_lookup_None (name : string) :
  ~ In name registered_names -> initial !! name = None.
Proof.
  intros H. unfold initial, _MODEL_BUILDERS, registered_names in *.
  simpl in H.
  repeat (rewrite lookup_insert_ne by (intros E; apply H; tauto)).
  by rewrite lookup_empty.
Qed.

Lemma initial_lookup_Some (name : string) :
  In name registered_names -> is_Some (initial !! name).
Proof.
  unfold initial, _MODEL_BUILDERS, registered_names. simpl.
  intros H. repeat destruct H as [<- | H]; try done;
    repeat (rewrite lookup_insert_eq || rewrite lookup_insert_ne by done);
    eauto.
Qed.

(** C5.  [build_model] applies to [cfg] the builder registered under
    [cfg.MODEL.TYPE], and raises [KeyError] when none is; with the
    registry as the module defines it, that is for every type other than
    the six names. *)
Theorem build_model_dispatch (reg : gmap string (builder arg built))
    (c : Config.cfg arg) :
  (forall b, reg !! Config.MODEL_TYPE c = Some b -> build_model reg c = b c) /\
  (reg !! Config.MODEL_TYPE c = None -> build_model reg c = Raise KeyError) /\
  (In (Config.MODEL_TYPE c) registered_names ->
     exists b, initial !! Config.MODEL_TYPE c = Some b /\
               build_model initial c = b c) /\
  (~ In (Config.MODEL_TYPE c) registered_names ->
     build_model initial c = Raise KeyError).
Proof.
  unfold build_model. repeat split.
  - by intros b ->.
  - by intros ->.
  - intros H. destruct (initial_lookup_Some _ H) as [b Hb].
    exists b. by rewrite Hb.
  - intros H. by rewrite (initial_lookup_None _ H).
Qed.

(** C9.  Registering a name that is present raises [KeyError] and leaves
    the registry as it is; registering a new name adds the mapping from
    the name to the builder and changes no other entry. *)
Theorem register_model_builder_spec (name : string)
    (b : builder arg built) (reg : gmap string (builder arg built)) :
  (is_Some (reg !! name) ->
     register_model_builder name b reg = (Raise KeyError, reg)) /\
  (reg !! name = None ->
     exists reg',
       register_model_builder name b reg = (Ok tt, reg') /\
       reg' !! name = Some b /\
       (forall k, k <> name -> reg' !! k = reg !! k) /\
       dom reg' = {[name]} ∪ dom reg).
Proof.
  unfold register_model_builder, PyDict.mem. split.
  - intros [b' ->]. reflexivity.
  - intros ->. eexists. split; [reflexivity |].
    split; [apply lookup_insert_eq |].
    split; [intros k Hk; by apply lookup_insert_ne |].
    apply dom_insert_L.
Qed.

End ModelsFacts.

(** *** Concrete runs, with builders that return their own name *)

Definition named (n : string) : builder unit string := fun _ => Ok n.

Definition registry0 : gmap string (builder unit string) :=
  _MODEL_BUILDERS (named "pointnet") (named "dgcnn") (named "pn2ssg")
    (named "pn2msg") (named "pns2cnn") (named "s2cnn").

Definition cfg_of_type (t : string) : Config.cfg unit :=
  Config.mkCfg t (-1) "" "" [] [] [] 4 None 32 [] 32 [].

Lemma build_model_dispatch_witness :
  build_model registry0 (cfg_of_type "DGCNN") = Ok "dgcnn" /\
  build_model registry0 (cfg_of_type "") = Raise KeyError.
Proof.
  destruct (build_model_dispatch (named "pointnet") (named "dgcnn")
              (named "pn2ssg") (named "pn2msg") (named "pns2cnn")
              (named "s2cnn") registry0 (cfg_of_type "DGCNN"))
    as (H1 & _ & _ & _).
  destruct (build_model_dispatch (named "pointnet") (named "dgcnn")
              (named "pn2ssg") (named "pn2msg") (named "pns2cnn")
              (named "s2cnn") registry0 (cfg_of_type ""))
    as (_ & _ & _ & H4).
  split.
  - apply (H1 (named "dgcnn")). vm_compute. reflexivity.
  - apply H4. simpl. intros H.
    repeat destruct H as [H | H]; try discriminate H. exact H.
Defined.

Lemma register_model_builder_spec_witness :
  register_model_builder "DGCNN" (named "other") registry0
    = (Raise KeyError, registry0) /\
  exists reg',
    register_model_builder "MYNET" (named "mynet") registry0 = (Ok tt, reg') /\
    reg' !! "MYNET" = Some (named "mynet").
Proof.
  destruct (register_model_builder_spec "DGCNN" (named "other") registry0)
    as (H1 & _).
  destruct (register_model_builder_spec "MYNET" (named "mynet") registry0)
    as (_ & H2).
  split.
  - apply H1. vm_compute. eauto.
  - destruct H2 as (reg' & Hr & Hl & _); [vm_compute; reflexivity |].
    exists reg'. split; [exact Hr | exact Hl].
Defined.

End ModelsFacts.

(** ** The data loader *)

Module DataFacts.
Import Data.

Section DataFacts.
Context {arg transform dataset : Type}.
Variable as_str : arg -> option string.
Variable T_getattr : string -> option (list arg -> result transform).
Variables PointCloudToTensor PointCloudTensorTranspose : transform.
Variable Compose : list transform -> transform.
Variables ModelNetH5 ShapeNetH5 KITTI
  : dataset_args (transform:=transform) -> result dataset.
Variable DataLoader_check : DataLoader (dataset:=dataset) -> result unit.

Local Abbreviation build_dataset' :=
  (build_dataset as_str T_getattr PointCloudToTensor
     PointCloudTensorTranspose Compose ModelNetH5 ShapeNetH5 KITTI).
Local Abbreviation build_dataloader' :=
  (build_dataloader as_str T_getattr PointCloudToTensor
     PointCloudTensorTranspose Compose ModelNetH5 ShapeNetH5 KITTI
     DataLoader_check).

Lemma mode_assertion (mode : string) :
  existsb (String.eqb mode) modes = true <-> In mode modes.
Proof.
  rewrite existsb_exists. split.
  - intros (x & Hx & E). apply String.eqb_eq in E. by subst.
  - intros H. exists mode. split; [done | apply String.eqb_refl].
Qed.

(** An unknown [DATASET.TYPE] is refused. *)
Lemma build_dataset_unknown_type (c : Config.cfg arg) (mode : string) :
  Config.DATASET_TYPE c <> "ModelNetH5" ->
  Config.DATASET_TYPE c <> "ShapeNetH5" ->
  Config.DATASET_TYPE c <> "KITTI" ->
  forall ds, build_dataset' c mode <> Ok ds.
Proof.
  intros H1 H2 H3 ds. unfold build_dataset.
  destruct (build_transform _ _ _ _ _ _ _) as [t|e]; [| discriminate].
  cbn [rbind].
  apply String.eqb_neq in H1, H2, H3. rewrite H1, H2, H3. discriminate.
Qed.

(** C6 (amended).  For a mode among "train", "val" and "test" for which
    [build_dataset] returns a dataset and, if the mode is "train",
    [DATALOADER.DROP_LAST] is defined: when the library accepts the
    loader on that dataset whose batch size is [TRAIN.BATCH_SIZE] for
    "train" and [TEST.BATCH_SIZE] otherwise, which shuffles exactly for
    "train", drops the last batch exactly for "train" with
    [DATALOADER.DROP_LAST] true, and has [DATALOADER.NUM_WORKERS]
    workers, that loader is what [build_dataloader] returns; for any
    other mode the assertion fails. *)
Theorem build_dataloader_args (c : Config.cfg arg) (mode : string) :
  (forall ds dl,
     In mode modes ->
     build_dataset' c mode = Ok ds ->
     (mode = "train" -> is_Some (Config.DATALOADER_DROP_LAST c)) ->
     dataset_ dl = ds ->
     batch_size dl = (if String.eqb mode "train"
                      then Config.TRAIN_BATCH_SIZE c
                      else Config.TEST_BATCH_SIZE c) ->
     (shuffle dl = true <-> mode = "train") ->
     (drop_last dl = true <->
        mode = "train" /\ Config.DATALOADER_DROP_LAST c = Some true) ->
     num_workers dl = Config.DATALOADER_NUM_WORKERS c ->
     DataLoader_check dl = Ok tt ->
     build_dataloader' c mode = Ok dl) /\
  (~ In mode modes -> build_dataloader' c mode = Raise AssertionError).
Proof.
  split.
  - intros ds [ds' bs sh dr nw] Hmode Hds Hdrop.
    cbn [dataset_ batch_size shuffle drop_last num_workers].
    intros -> -> Hsh Hdr -> Hcheck. unfold build_dataloader.
    apply mode_assertion in Hmode. rewrite Hmode. cbn [negb].
    rewrite Hds. cbn [rbind].
    destruct (String.eqb mode "train") eqn:Etrain.
    + apply String.eqb_eq in Etrain.
      destruct (Hdrop Etrain) as [b Hb]. rewrite Hb. cbn [rbind].
      assert (Esh : sh = true) by (by apply Hsh).
      assert (Edr : dr = b).
      { destruct dr, b; try reflexivity.
        - destruct Hdr as [Hdr _]. destruct (Hdr eq_refl) as [_ E].
          congruence.
        - destruct Hdr as [_ Hdr]. apply Hdr. by split. }
      subst sh dr. rewrite Hcheck. reflexivity.
    + apply String.eqb_neq in Etrain. cbn [rbind].
      assert (Esh : sh = false).
      { destruct sh; [| reflexivity]. destruct Hsh as [Hsh _].
        by destruct (Etrain (Hsh eq_refl)). }
      assert (Edr : dr = false).
      { destruct dr; [| reflexivity]. destruct Hdr as [Hdr _].
        destruct (Hdr eq_refl) as [E _]. by destruct (Etrain E). }
      subst sh dr. rewrite Hcheck. reflexivity.
  - intros Hmode. unfold build_dataloader.
    destruct (existsb (String.eqb mode) modes) eqn:E; [| reflexivity].
    apply mode_assertion in E. contradiction.
Qed.

End DataFacts.

(** *** Concrete runs, with constructors that always succeed *)

Definition T0 (name : string) : option (list string -> result nat) :=
if String.eqb name "PointCloudRotate" then Some (fun _ => Ok 2) else None.

Definition build_dataloader0
: Config.cfg string -> string -> result (@DataLoader (@dataset_args nat)) :=
build_dataloader (fun a => Some a) T0 0 1 (fun l => length l)
  (fun args => Ok args) (fun args => Ok args) (fun args => Ok args)
  (fun _ => Ok tt).

Definition cfg_modelnet : Config.cfg string :=
Config.mkCfg "POINTNET" 1024 "ModelNetH5" "data/modelnet40" ["train"]
  ["test"] ["test"] 4 (Some true) 32 [Config.AugName "PointCloudRotate"]
  16 [].

(** A configuration whose [DATASET.TYPE] names none of the datasets that
[build_dataset] knows. *)
Definition cfg_scannet : Config.cfg string :=
Config.mkCfg "POINTNET" 1024 "ScanNet" "data/scannet" ["train"]
  ["test"] ["test"] 4 (Some true) 32 [Config.AugName "PointCloudRotate"]
  16 [].

Lemma build_dataloader_args_witness :
build_dataloader0 cfg_modelnet "train"
  = Ok (mkDataLoader
          (mkDatasetArgs "data/modelnet40" ["train"] false 1024%Z 3)
          32 true true 4) /\
build_dataloader0 cfg_modelnet "all" = Raise AssertionError.
Proof.
destruct (build_dataloader_args (fun a => Some a) T0 0 1
            (fun l => length l) (fun args => Ok args) (fun args => Ok args)
            (fun args => Ok args) (fun _ => Ok tt) cfg_modelnet "train")
  as [H1 _].
destruct (build_dataloader_args (fun a => Some a) T0 0 1
            (fun l => length l) (fun args => Ok args) (fun args => Ok args)
            (fun args => Ok args) (fun _ => Ok tt) cfg_modelnet "all")
  as [_ H2].
split.
- apply (H1 (mkDatasetArgs "data/modelnet40" ["train"] false 1024%Z 3)).
  + simpl. tauto.
  + reflexivity.
  + intros _. simpl. eauto.
  + reflexivity.
  + reflexivity.
  + simpl. tauto.
  + simpl. tauto.
  + reflexivity.
  + reflexivity.
- apply H2. simpl. intros H.
  repeat destruct H as [H | H]; try discriminate H. exact H.
Defined.

(** C6 as stated fails: on a configuration whose [DATASET.TYPE] is none
  of "ModelNetH5", "ShapeNetH5" and "KITTI", [build_dataloader] raises
  [NotImplementedError] for the mode "test" and constructs no loader. *)
Lemma build_dataloader_unknown_type_counterexample :
In "test" modes /\
build_dataloader0 cfg_scannet "test" = Raise NotImplementedError.
Proof. split; [simpl; tauto | reflexivity]. Qed.

End DataFacts.

(** ** Classification accuracy *)

Module MetricFacts.
Import Metric.
Local Open Scope list_scope.

(** [j] is the first position of a maximal score of [row]. *)
Definition first_max (row : list Q) (j : nat) : Prop :=
  exists x, row !! j = Some x /\
    (forall k y, row !! k = Some y -> (y <= x)%Q) /\
    (forall k y, (k < j)%nat -> row !! k = Some y -> (y < x)%Q).

Lemma Qltb_true (a b : Q) : Qltb a b = true <-> (a < b)%Q.
Proof.
  unfold Qltb. rewrite negb_true_iff, <- not_true_iff_false, Qle_bool_iff.
  split; [apply Qnot_le_lt | apply Qlt_not_le].
Qed.

Lemma Qltb_false (a b : Q) : Qltb a b = false <-> (b <= a)%Q.
Proof.
  unfold Qltb. rewrite negb_false_iff. apply Qle_bool_iff.
Qed.

Lemma first_max_unique (row : list Q) (j j' : nat) :
  first_max row j -> first_max row j' -> j = j'.
Proof.
  intros (x & Hx & Hall & Hbefore) (x' & Hx' & Hall' & Hbefore').
  destruct (Nat.lt_trichotomy j j') as [Hlt | [Heq | Hgt]]; [| done |].
  - exfalso. apply (Qlt_not_le _ _ (Hbefore' _ _ Hlt Hx)).
    by apply (Hall j').
  - exfalso. apply (Qlt_not_le _ _ (Hbefore _ _ Hgt Hx')).
    by apply (Hall' j).
Qed.

(** The scan keeps the first maximum of the part it has read. *)
Lemma argmax_from_first_max (r pre : list Q) (best : Q) (besti : nat) :
  (pre ++ r) !! besti = Some best ->
  (besti < length pre)%nat ->
  (forall k y, (k < length pre)%nat -> (pre ++ r) !! k = Some y ->
               (y <= best)%Q) ->
  (forall k y, (k < besti)%nat -> (pre ++ r) !! k = Some y -> (y < best)%Q) ->
  first_max (pre ++ r) (argmax_from best besti (length pre) r).
Proof.
  revert pre best besti.
  induction r as [|x r IH]; intros pre best besti Hbest Hlt Hle Hbefore.
  - simpl. exists best. split; [done |]. split; [| done].
    intros k y Hk. apply (Hle k y); [| done].
    apply lookup_lt_Some in Hk. by rewrite app_nil_r in Hk.
  - simpl.
    assert (Hx : (pre ++ x :: r) !! length pre = Some x)
      by apply list_lookup_middle, eq_refl.
    assert (Hlen : length (pre ++ [x]) = S (length pre))
      by (rewrite length_app; simpl; lia).
    assert (Hsplit : pre ++ x :: r = (pre ++ [x]) ++ r)
      by (by rewrite <- app_assoc).
    destruct (Qltb best x) eqn:E.
    + apply Qltb_true in E. rewrite Hsplit, <- Hlen.
      apply IH; rewrite <- ?Hsplit, ?Hlen.
      * exact Hx.
      * lia.
      * intros k y Hk Hy.
        destruct (decide (k = length pre)) as [-> | Hne].
        -- rewrite Hx in Hy. injection Hy as <-. apply Qle_refl.
        -- apply Qlt_le_weak. eapply Qle_lt_trans; [| exact E].
           apply (Hle k y); [lia | done].
      * intros k y Hk Hy. eapply Qle_lt_trans; [| exact E].
        by apply (Hle k y).
    + apply Qltb_false in E. rewrite Hsplit, <- Hlen.
      apply IH; rewrite <- ?Hsplit, ?Hlen.
      * exact Hbest.
      * lia.
      * intros k y Hk Hy.
        destruct (decide (k = length pre)) as [-> | Hne].
        -- rewrite Hx in Hy. by injection Hy as <-.
        -- apply (Hle k y); [lia | done].
      * exact Hbefore.
Qed.

Lemma argmax_row_first_max (row : list Q) :
  row <> [] -> exists j, argmax_row row = Ok j /\ first_max row j.
Proof.
  destruct row as [|x r]; [done |]. intros _. eexists. split; [done |].
  apply (argmax_from_first_max r [x] x 0).
  - reflexivity.
  - simpl. lia.
  - intros [|k] y Hk Hy; simpl in *; [| lia].
    injection Hy as <-. apply Qle_refl.
  - intros k y Hk. lia.
Qed.

Lemma argmax1_first_max (t : list (list Q)) :
  (forall row, In row t -> row <> []) ->
  exists js, argmax1 t = Ok js /\ length js = length t /\
    forall i row, t !! i = Some row ->
      exists j, first_max row j /\ js !! i = Some (Z.of_nat j).
Proof.
  induction t as [|row t IH]; intros Hne.
  - exists []. by repeat split.
  - destruct (argmax_row_first_max row) as (j & Hj & Hfm);
      [apply Hne; by left |].
    destruct IH as (js & Hjs & Hlen & Hall);
      [intros r Hr; apply Hne; by right |].
    exists (Z.of_nat j :: js). simpl. rewrite Hj, Hjs. simpl.
    split; [done |]. split; [by rewrite Hlen |].
    intros [|i] r Hr; simpl in *.
    + injection Hr as <-. by exists j.
    + by apply Hall.
Qed.

Lemma eq_zip_length (a b : list Z) :
  length a = length b -> length (eq_zip a b) = length a.
Proof.
  revert b. induction a as [|x a IH]; intros [|y b] H; simpl in *;
    try done. by rewrite IH by lia.
Qed.

Lemma eq_zip_lookup (a b : list Z) (i : nat) (x y : Z) :
  a !! i = Some x -> b !! i = Some y ->
  eq_zip a b !! i = Some (Z.eqb x y).
Proof.
  revert b i. induction a as [|x' a IH]; intros [|y' b] [|i] Ha Hb;
    simpl in *; try done.
  - by injection Ha as <-; injection Hb as <-.
  - by apply IH.
Qed.

(** C7.  For predictions with "cls_logit" (a batch of non-empty rows of
    scores) and labels with "cls_label" (one label per sample),
    [ClsAccuracy.forward] returns [{"cls_acc": a}] with one entry per
    sample: [a[i]] is 1.0 if the first position of a maximal score of
    row [i] equals [cls_label[i]], and 0.0 otherwise. *)
Theorem ClsAccuracy_forward_spec (preds : gmap string (list (list Q)))
    (labels : gmap string (list Z)) (logits : list (list Q))
    (lab : list Z) :
  preds !! "cls_logit" = Some logits ->
  labels !! "cls_label" = Some lab ->
  (forall row, In row logits -> row <> []) ->
  length lab = length logits ->
  exists a,
    ClsAccuracy_forward preds labels = Ok (<["cls_acc" := a]> ∅) /\
    length a = length logits /\
    forall i row y, logits !! i = Some row -> lab !! i = Some y ->
      exists j, first_max row j /\
        a !! i = Some (if (Z.of_nat j =? y)%Z then 1%Q else 0%Q).
Proof.
  intros Hp Hl Hrows Hlen.
  destruct (argmax1_first_max logits Hrows) as (js & Hjs & Hjlen & Hall).
  unfold ClsAccuracy_forward, getitem. rewrite Hp, Hl. cbn [rbind].
  rewrite Hjs. cbn [rbind]. unfold eq.
  assert (E : Nat.eqb (length js) (length lab) = true)
    by (apply Nat.eqb_eq; lia).
  rewrite E. cbn [rbind]. eexists. split; [reflexivity |].
  split.
  - unfold float. rewrite length_map, eq_zip_length; lia.
  - intros i row y Hrow Hy.
    destruct (Hall i row Hrow) as (j & Hfm & Hj).
    exists j. split; [exact Hfm |].
    unfold float. rewrite list_lookup_fmap.
    by rewrite (eq_zip_lookup _ _ _ _ _ Hj Hy).
Qed.

(** *** A concrete batch *)

Definition preds0 : gmap string (list (list Q)) :=
  <["cls_logit" := [[1 # 10; 9 # 10; 9 # 10]; [8 # 10; 2 # 10; 0 # 1]]]> ∅.
Definition labels0 : gmap string (list Z) :=
  <["cls_label" := [1%Z; 1%Z]]> ∅.

Lemma ClsAccuracy_forward_spec_witness :
  exists a,
    ClsAccuracy_forward preds0 labels0 = Ok (<["cls_acc" := a]> ∅) /\
    length a = 2.
Proof.
  destruct (ClsAccuracy_forward_spec preds0 labels0
              [[1 # 10; 9 # 10; 9 # 10]; [8 # 10; 2 # 10; 0 # 1]]
              [1%Z; 1%Z])
    as (a & Ha & Hlen & _).
  - reflexivity.
  - reflexivity.
  - intros row [<- | [<- | []]]; discriminate.
  - reflexivity.
  - exists a. split; [exact Ha | exact Hlen].
Defined.

Example ClsAccuracy_forward_run :
  ClsAccuracy_forward preds0 labels0 = Ok (<["cls_acc" := [1%Q; 0%Q]]> ∅).
Proof. reflexivity. Qed.

End MetricFacts.

(** ** The few-shot dataset *)

Module FewShotFacts.
Import FewShot.
Local Open Scope list_scope.

Section FewShotFacts.
Context {point rng : Type}.
Variable np_random_permutation : rng -> list nat -> list nat * rng.
Variable _load_pts : string -> result (list point).

(** The generator returns a rearrangement of its argument. *)
Hypothesis np_random_permutation_perm :
  forall g l, Permutation (np_random_permutation g l).1 l.

Local Abbreviation make_choice' := (make_choice np_random_permutation).

Lemma take_rows_seq (pre pts : list point) (n : nat) :
  (n <= length pts)%nat ->
  take_rows (pre ++ pts) (seq (length pre) n) = Ok (take n pts).
Proof.
  revert pre pts. induction n as [|n IH]; intros pre pts Hn; [done |].
  destruct pts as [|p pts]; simpl in Hn; [lia |].
  simpl. rewrite list_lookup_middle by done.
  replace (pre ++ p :: pts) with ((pre ++ [p]) ++ pts)
    by (by rewrite <- app_assoc).
  replace (S (length pre)) with (length (pre ++ [p]))
    by (rewrite length_app; simpl; lia).
  rewrite IH by lia. reflexivity.
Qed.

(** Cropping: without shuffling, a cloud of at least [num_points] points
    gives its first [num_points] points in their order. *)
Lemma crop_rows (self : ShapeNetFewShot (point:=point))
    (pts : list point) (g : rng) :
  shuffle_points self = false ->
  (0 < num_points self)%Z ->
  (num_points self <= Z.of_nat (length pts))%Z ->
  take_rows pts (make_choice' self (length pts) g).1
    = Ok (take (Z.to_nat (num_points self)) pts).
Proof.
  intros Hsh Hpos Hle. unfold make_choice. rewrite Hsh.
  apply Z.ltb_lt in Hpos. rewrite Hpos.
  pose proof Hle as Hle'. apply Z.leb_le in Hle'. rewrite Hle'.
  cbn [fst]. rewrite take_seq, Nat.min_l by lia.
  apply (take_rows_seq [] pts). lia.
Qed.

(** Padding: a cloud of fewer than [num_points] points is selected with
    an index array of its length plus at most its length again, never
    more than twice the points there are. *)
Lemma make_choice_pad_length (self : ShapeNetFewShot (point:=point))
    (len : nat) (g : rng) :
  (0 < num_points self)%Z ->
  (Z.of_nat len < num_points self)%Z ->
  length (make_choice' self len g).1
    = (len + Nat.min (Z.to_nat (num_points self) - len) len)%nat.
Proof.
  intros Hpos Hlt. unfold make_choice.
  apply Z.ltb_lt in Hpos. rewrite Hpos.
  assert (E : (num_points self <=? Z.of_nat len)%Z = false)
    by (apply Z.leb_gt; lia).
  assert (Hchoice : forall cg : list nat * rng,
            length cg.1 = len ->
            length (let '(choice, g0) := cg in
                    if (num_points self <=? Z.of_nat len)%Z
                    then (take (Z.to_nat (num_points self)) choice, g0)
                    else
                      let '(shuffled, g1) :=
                        np_random_permutation g0 choice in
                      (choice ++
                         take (Z.to_nat (num_points self - Z.of_nat len))
                           shuffled, g1)).1
            = (len + Nat.min (Z.to_nat (num_points self) - len) len)%nat).
  { intros [choice g0] Hc. simpl in Hc. rewrite E.
    pose proof (np_random_permutation_perm g0 choice) as Hp.
    apply Permutation_length in Hp.
    destruct (np_random_permutation g0 choice) as [shuffled g1].
    simpl in *. rewrite length_app, length_take. lia. }
  destruct (shuffle_points self).
  - apply Hchoice.
    rewrite (Permutation_length (np_random_permutation_perm g (seq 0 len))).
    apply length_seq.
  - apply (Hchoice (seq 0 len, g)). apply length_seq.
Qed.

Implicit Types (self : ShapeNetFewShot (point:=point)) (pts : list point).

Lemma take_rows_ok pts (choice : list nat) :
  Forall (fun i => (i < length pts)%nat) choice ->
  exists rows,
    take_rows pts choice = Ok rows /\
    Forall2 (fun i p => pts !! i = Some p) choice rows.
Proof.
  induction 1 as [|i choice Hi _ (rows & Hrows & Hall)].
  - exists []. split; [reflexivity | constructor].
  - destruct (lookup_lt_is_Some_2 pts i Hi) as [p Hp].
    exists (p :: rows). simpl. rewrite Hp, Hrows. split; [reflexivity |].
    by constructor.
Qed.

Lemma permutation_bound (g : rng) (l : list nat) (n : nat) :
  Forall (fun i => (i < n)%nat) l ->
  Forall (fun i => (i < n)%nat) (np_random_permutation g l).1.
Proof.
  intros H. by rewrite (np_random_permutation_perm g l).
Qed.

Lemma seq_bound (n : nat) : Forall (fun i => (i < n)%nat) (seq 0 n).
Proof. apply Forall_forall. intros i Hi. apply elem_of_seq in Hi. lia. Qed.

(** Every index [__getitem__] selects with is in range. *)
Lemma make_choice_bound self (len : nat) (g : rng) :
  Forall (fun i => (i < len)%nat) (make_choice' self len g).1.
Proof.
  unfold make_choice.
  assert (Hfirst : Forall (fun i => (i < len)%nat)
            (if shuffle_points self
             then np_random_permutation g (seq 0 len)
             else (seq 0 len, g)).1).
  { destruct (shuffle_points self);
      [apply permutation_bound |]; apply seq_bound. }
  destruct (if shuffle_points self then _ else _) as [choice g0].
  simpl in Hfirst.
  destruct (0 <? num_points self)%Z; [| exact Hfirst].
  destruct (num_points self <=? Z.of_nat len)%Z.
  - simpl. by apply Forall_take.
  - pose proof (permutation_bound g0 choice len Hfirst) as Hpad.
    destruct (np_random_permutation g0 choice) as [shuffled g1].
    simpl in *. apply Forall_app. split; [exact Hfirst |].
    by apply Forall_take.
Qed.

(** The number of indices [__getitem__] selects with never exceeds a
    positive [num_points]. *)
Lemma make_choice_length_le self (len : nat) (g : rng) :
  (0 < num_points self)%Z ->
  (length (make_choice' self len g).1 <= Z.to_nat (num_points self))%nat.
Proof.
  intros Hpos.
  destruct (num_points self <=? Z.of_nat len)%Z eqn:E.
  - unfold make_choice. rewrite E.
    apply Z.ltb_lt in Hpos. rewrite Hpos.
    destruct (if shuffle_points self then _ else _) as [choice g0].
    simpl. rewrite length_take. lia.
  - apply Z.leb_gt in E.
    rewrite (make_choice_pad_length self len g Hpos E). lia.
Qed.

(** C8 fails on the code.  For a stored cloud of fewer than half of
    [num_points] points (and no transform), [__getitem__] returns twice
    the points of the cloud, which is fewer than [num_points] rows: the
    padding is cut from a permutation of the indices of the cloud, which
    has no more entries than the cloud has points. *)
Theorem getitem_pads_too_few self (index : Z) (g : rng) (md : meta)
    (ind : nat) pts :
  list_getitem (meta_data self) index = Ok md ->
  classes_to_ind_map self !! class md = Some ind ->
  _load_pts (pts_path md) = Ok pts ->
  transform self = None ->
  (2 * Z.of_nat (length pts) < num_points self)%Z ->
  exists it g',
    __getitem__ np_random_permutation _load_pts self index g = Ok (it, g') /\
    length (points it) = (2 * length pts)%nat /\
    (Z.of_nat (length (points it)) < num_points self)%Z.
Proof.
  intros Hmd Hind Hpts Ht Hlt.
  assert (Hpos : (0 < num_points self)%Z) by lia.
  assert (Hfew : (Z.of_nat (length pts) < num_points self)%Z) by lia.
  unfold __getitem__, Metric.getitem.
  rewrite Hmd. cbn [rbind]. rewrite Hind. cbn [rbind]. rewrite Hpts.
  cbn [rbind].
  pose proof (make_choice_bound self (length pts) g) as Hb.
  pose proof (make_choice_pad_length self (length pts) g Hpos Hfew) as Hlen.
  destruct (make_choice np_random_permutation self (length pts) g)
    as [choice g'].
  cbn [fst] in Hb, Hlen.
  destruct (take_rows_ok pts choice Hb) as (rows & Hrows & Hall).
  rewrite Hrows. cbn [rbind]. rewrite Ht.
  eexists _, _. split; [reflexivity |]. cbn [points].
  rewrite <- (Forall2_length _ _ _ Hall), Hlen. lia.
Qed.

End FewShotFacts.

(** *** A cloud of two points, asked for five *)

Definition keep_order (g : unit) (l : list nat) : list nat * unit := (l, g).

Lemma keep_order_perm (g : unit) (l : list nat) :
  Permutation (keep_order g l).1 l.
Proof. reflexivity. Qed.

(** The array of a point file of two lines. *)
Definition two_points : list (list Q) :=
  [[1 # 2; 0 # 1; 1 # 4]; [0 # 1; 1 # 2; 1 # 4]].

Definition load_two_points (fname : string) : result (list (list Q)) :=
  if String.eqb fname "data/02691156/points/a1.pts" then Ok two_points
  else Raise IOError.

Definition meta_a1 : meta :=
  mkMeta "a1" "Airplane" "data/02691156/points/a1.pts".

Definition dataset5 : ShapeNetFewShot (point:=list Q) :=
  mkShapeNetFewShot 5 false None (<["Airplane" := 0]> ∅) [meta_a1].

(** With [num_points = 5] and a stored cloud of two points,
    [__getitem__] returns four rows, not five. *)
Lemma getitem_pads_too_few_witness :
  exists it g',
    __getitem__ keep_order load_two_points dataset5 0 tt = Ok (it, g') /\
    length (points it) = 4 /\
    num_points dataset5 = 5%Z.
Proof.
  destruct (getitem_pads_too_few keep_order load_two_points keep_order_perm
              dataset5 0 tt meta_a1 0 two_points
              eq_refl eq_refl eq_refl eq_refl ltac:(simpl; lia))
    as (it & g' & Hg & Hl & _).
  exists it, g'. split; [exact Hg |]. split; [exact Hl | reflexivity].
Defined.

Definition dataset2 : ShapeNetFewShot (point:=list Q) :=
  mkShapeNetFewShot 2 false None ∅ [].

Lemma crop_rows_run :
  take_rows [[1 # 1]; [2 # 1]; [3 # 1]]
    (make_choice keep_order dataset2 3 tt).1
  = Ok [[1 # 1]; [2 # 1]].
Proof.
  apply (crop_rows keep_order dataset2 [[1 # 1]; [2 # 1]; [3 # 1]] tt);
    [reflexivity | reflexivity | simpl; lia].
Defined.

End FewShotFacts.


(** * Further properties of the checkpointer *)

Module CheckpointMore.
Import PyStr Posixpath PathFacts Checkpoint CheckpointFacts.

Section CheckpointMore.
Context {V : Type}.
Variable writable : string -> bool.

Implicit Types (ck : Checkpointer V) (fs : gmap string (Fs.file V))
               (kwargs : gmap string V).

Lemma open_w_inv (p : string) fs :
  Fs.open_w writable p fs = Ok tt ->
  writable p = true /\ fs !! p <> Some Fs.FDir.
Proof.
  unfold Fs.open_w.
  destruct (fs !! p) as [[| |]|]; destruct (writable p); intros H;
    try discriminate H; split; congruence.
Qed.

(** The shape of every successful [save] that wrote something. *)
Lemma save_inv ck (name tag_file : string) kwargs fs fs' :
  save_dir ck <> "" ->
  save writable ck name tag_file kwargs fs = Ok fs' ->
  let save_file := join (save_dir ck) (name ++ ".pth") in
  let tag_path := join (save_dir ck) tag_file in
  writable save_file = true /\ writable tag_path = true /\
  fs' = <[tag_path := Fs.FText (stored_name save_file)]>
          (<[save_file := Fs.FCkpt (save_data ck kwargs)]> fs).
Proof.
  intros Hd. unfold save.
  assert (Ht : negb (truthy (save_dir ck)) = false)
    by (by destruct (save_dir ck)).
  rewrite Ht. unfold Fs.torch_save.
  destruct (Fs.open_w writable _ fs) as [[]|e] eqn:E1; [| discriminate].
  cbn [rbind]. unfold tag_last_checkpoint, Fs.write_text.
  destruct (Fs.open_w writable (join (save_dir ck) tag_file) _)
    as [[]|e] eqn:E2; [| discriminate].
  cbn [rbind]. intros [= <-].
  apply open_w_inv in E1 as [Hw1 _]. apply open_w_inv in E2 as [Hw2 _].
  by repeat split.
Qed.

(** X1.  Saving is idempotent: repeating a [save] that has succeeded, with
    the same arguments, succeeds and leaves the store as it is. *)
Theorem save_idempotent ck (name tag_file : string) kwargs fs fs' :
  save writable ck name tag_file kwargs fs = Ok fs' ->
  save writable ck name tag_file kwargs fs' = Ok fs'.
Proof.
  intros H. destruct (decide (save_dir ck = "")) as [E | Hd].
  - unfold save in *. rewrite E in *. simpl in *. by injection H as <-.
  - destruct (save_inv _ _ _ _ _ _ Hd H) as (Hw1 & Hw2 & ->).
    unfold save.
    assert (Ht : negb (truthy (save_dir ck)) = false)
      by (by destruct (save_dir ck)).
    rewrite Ht. unfold Fs.torch_save.
    set (sf := join (save_dir ck) (name ++ ".pth")) in *.
    set (tp := join (save_dir ck) tag_file) in *.
    rewrite (open_w_ok writable sf); [| exact Hw1 |].
    + cbn [rbind]. unfold tag_last_checkpoint, Fs.write_text. fold tp.
      rewrite (open_w_ok writable tp); [| exact Hw2 |].
      * cbn [rbind]. f_equal. fold (stored_name sf).
        apply map_eq. intros k. rewrite !lookup_insert.
        repeat case_decide; congruence.
      * destruct (decide (tp = sf)) as [E | Hne].
        -- rewrite E, lookup_insert_eq. discriminate.
        -- rewrite lookup_insert_ne, lookup_insert_eq by done. discriminate.
    + destruct (decide (sf = tp)) as [E | Hne].
      * rewrite E, lookup_insert_eq. discriminate.
      * rewrite lookup_insert_ne, lookup_insert_eq by done. discriminate.
Qed.

(** X2.  A successful [save] removes no file; with a non-empty [save_dir]
    the checkpoint path and the tag path exist afterwards, so that
    [has_checkpoint] holds. *)
Theorem save_keeps_files ck (name tag_file : string) kwargs fs fs' :
  save writable ck name tag_file kwargs fs = Ok fs' ->
  (forall p, Fs.exists_ p fs = true -> Fs.exists_ p fs' = true) /\
  (save_dir ck <> "" ->
     has_checkpoint ck tag_file fs' = true /\
     Fs.exists_ (join (save_dir ck) (name ++ ".pth")) fs' = true).
Proof.
  intros H. destruct (decide (save_dir ck = "")) as [E | Hd].
  - split; [| done]. unfold save in H. rewrite E in H. simpl in H.
    by injection H as <-.
  - destruct (save_inv _ _ _ _ _ _ Hd H) as (_ & _ & ->).
    unfold has_checkpoint, Fs.exists_. split; [| intros _; split].
    + intros p. rewrite !lookup_insert.
      repeat case_decide; done.
    + by rewrite lookup_insert_eq.
    + rewrite !lookup_insert. repeat case_decide; done.
Qed.

Lemma save_file_inj (d n1 n2 : string) :
  contains sep n1 = false -> contains sep n2 = false ->
  join d (n1 ++ ".pth") = join d (n2 ++ ".pth") -> n1 = n2.
Proof.
  intros H1 H2 E. apply join_inj in E.
  - by apply append_inj_r in E.
  - apply no_sep_not_abs. by rewrite contains_app, H1.
  - apply no_sep_not_abs. by rewrite contains_app, H2.
Qed.

(** X3.  The tag file names the latest checkpoint and earlier ones are
    kept: after two saves under different names (names with no '/', the
    second with no carriage return and no leading whitespace; a
    non-empty [save_dir] which, if it is absolute, has no carriage
    return; the two checkpoint files and the tag file writable),
    [get_checkpoint_file] returns the path of the second checkpoint, and
    both checkpoint files hold what was saved in them. *)
Theorem save_twice_tags_latest ck (n1 n2 : string) (kw1 kw2 : gmap string V)
    fs :
  let file1 := join (save_dir ck) (n1 ++ ".pth") in
  let file2 := join (save_dir ck) (n2 ++ ".pth") in
  let tag_path := join (save_dir ck) default_tag_file in
  save_dir ck <> "" ->
  n1 <> n2 ->
  contains sep n1 = false -> contains sep n2 = false ->
  contains "013"%char n2 = false -> leading_space n2 = false ->
  (isabs (save_dir ck) = true -> contains "013"%char (save_dir ck) = false) ->
  writable file1 = true -> fs !! file1 <> Some Fs.FDir ->
  writable file2 = true -> fs !! file2 <> Some Fs.FDir ->
  writable tag_path = true -> fs !! tag_path <> Some Fs.FDir ->
  exists fs1 fs2,
    save writable ck n1 default_tag_file kw1 fs = Ok fs1 /\
    save writable ck n2 default_tag_file kw2 fs1 = Ok fs2 /\
    get_checkpoint_file ck default_tag_file fs2 = Ok file2 /\
    fs2 !! file1 = Some (Fs.FCkpt (save_data ck kw1)) /\
    fs2 !! file2 = Some (Fs.FCkpt (save_data ck kw2)).
Proof.
  intros file1 file2 tag_path. subst file1 file2 tag_path.
  intros Hd Hn Hs1 Hs2 Hcr Hsp Hdcr Hw1 Hf1 Hw2 Hf2 Hwt Hft.
  pose proof (save_file_not_tag (save_dir ck) n1) as Hne1.
  pose proof (save_file_not_tag (save_dir ck) n2) as Hne2.
  assert (Hne12 : join (save_dir ck) (n1 ++ ".pth")
                  <> join (save_dir ck) (n2 ++ ".pth")).
  { intros E. by apply Hn, (save_file_inj (save_dir ck)). }
  eexists _, _. split; [apply (save_ok writable); try done; congruence |].
  split.
  { apply (save_ok writable); try done; try congruence;
      rewrite !lookup_insert; repeat case_decide; congruence. }
  split.
  { rewrite (get_checkpoint_file_text ck _ _ _ (lookup_insert_eq _ _ _)).
    f_equal. by apply save_file_resolves. }
  split.
  - rewrite !lookup_insert. repeat case_decide; congruence.
  - rewrite !lookup_insert. repeat case_decide; congruence.
Qed.

(** X4.  What a successful [load] consumes.  Loading a checkpoint [d]
    that has a "model" entry makes that entry the model state and returns
    the other entries, except that "optimizer" is taken out (and loaded,
    if [d] has it) exactly when the checkpointer has an optimizer, and
    likewise "scheduler": a checkpointer of a model alone hands the
    optimizer and scheduler entries back to the caller. *)
Theorem load_consumes ck (p tag_file : string) (d : gmap string V) (m : V) fs :
  truthy p = true ->
  fs !! p = Some (Fs.FCkpt d) ->
  d !! "model" = Some m ->
  exists rest ck',
    load ck (Some p) false tag_file fs = Ok (rest, ck') /\
    model ck' = m /\ save_dir ck' = save_dir ck /\
    optimizer ck' = match optimizer ck, d !! "optimizer" with
                    | Some _, Some v => Some v
                    | o, _ => o
                    end /\
    scheduler ck' = match scheduler ck, d !! "scheduler" with
                    | Some _, Some v => Some v
                    | s, _ => s
                    end /\
    rest !! "model" = None /\
    rest !! "optimizer" = match optimizer ck with
                          | Some _ => None
                          | None => d !! "optimizer"
                          end /\
    rest !! "scheduler" = match scheduler ck with
                          | Some _ => None
                          | None => d !! "scheduler"
                          end /\
    (forall k, k <> "model" -> k <> "optimizer" -> k <> "scheduler" ->
               rest !! k = d !! k).
Proof.
  intros Hp Hfile Hm. unfold load. cbn [andb rbind]. rewrite Hp.
  cbn [negb]. unfold _load_file, Fs.torch_load. rewrite Hfile.
  cbn [rbind]. unfold PyDict.pop at 1. rewrite Hm.
  cbn [rbind fst snd optimizer scheduler model save_dir].
  unfold PyDict.mem, PyDict.pop.
  rewrite (lookup_delete_ne d "model" "optimizer") by done.
  destruct (optimizer ck) as [o|] eqn:Eo;
    [destruct (d !! "optimizer") as [vo|] eqn:Edo |];
    cbn [rbind fst snd optimizer scheduler model save_dir];
    rewrite ?(lookup_delete_ne _ "optimizer" "scheduler") by done;
    rewrite (lookup_delete_ne d "model" "scheduler") by done;
    (destruct (scheduler ck) as [sc|] eqn:Es;
     [destruct (d !! "scheduler") as [vs|] eqn:Eds |]);
    cbn [rbind fst snd optimizer scheduler model save_dir];
    eexists _, _; (split; [reflexivity |]);
    cbn [optimizer scheduler model save_dir];
    repeat split; try reflexivity;
    try (intros k Hk1 Hk2 Hk3);
    rewrite ?lookup_delete; repeat case_decide; try congruence;
    try done.
Qed.

(** X5.  The one key [load] insists on is "model": a checkpoint file
    whose dictionary lacks it makes [load] raise [KeyError], whatever
    else the dictionary holds and whatever the checkpointer has for an
    optimizer and a scheduler.  This holds for a path given with
    [resume=False], and with [resume=True], for every [f], when the tag
    file exists and leads to that file. *)
Theorem load_missing_model_key ck (f : option string) (p tag_file : string)
    (d : gmap string V) fs :
  truthy p = true ->
  fs !! p = Some (Fs.FCkpt d) ->
  d !! "model" = None ->
  load ck (Some p) false tag_file fs = Raise KeyError /\
  (has_checkpoint ck tag_file fs = true ->
   get_checkpoint_file ck tag_file fs = Ok p ->
   load ck f true tag_file fs = Raise KeyError).
Proof.
  intros Hp Hfile Hm.
  assert (H : load ck (Some p) false tag_file fs = Raise KeyError).
  { unfold load. cbn [andb rbind]. rewrite Hp. cbn [negb].
    unfold _load_file, Fs.torch_load. rewrite Hfile. cbn [rbind].
    unfold PyDict.pop. by rewrite Hm. }
  split; [exact H |].
  intros Hhas Hget. rewrite <- H. unfold load.
  rewrite Hhas, Hget. reflexivity.
Qed.

(** X6.  A tag path that exists but cannot be read as a file (it is a
    directory) makes [load(f, resume=True)] return the empty dictionary
    without loading anything, whatever [f] is: [has_checkpoint] holds,
    and [get_checkpoint_file] turns the [IOError] into the empty path. *)
Theorem load_tag_is_directory ck (f : option string) (tag_file : string) fs :
  fs !! join (save_dir ck) tag_file = Some Fs.FDir ->
  has_checkpoint ck tag_file fs = true /\
  get_checkpoint_file ck tag_file fs = Ok "" /\
  load ck f true tag_file fs = Ok (∅, ck).
Proof.
  intros H.
  assert (H1 : has_checkpoint ck tag_file fs = true)
    by (unfold has_checkpoint, Fs.exists_; by rewrite H).
  assert (H2 : get_checkpoint_file ck tag_file fs = Ok "")
    by (unfold get_checkpoint_file, Fs.read_text; by rewrite H).
  split; [exact H1 |]. split; [exact H2 |].
  unfold load. by rewrite H1, H2.
Qed.

(** X7.  [load] reads two files at most: the tag file and the checkpoint
    file.  Two stores that agree on the tag path, on the path the tag
    leads to and on [f] give the same result. *)
Theorem load_reads_two_files ck (f : option string) (resume : bool)
    (tag_file : string) fs1 fs2 :
  fs1 !! join (save_dir ck) tag_file = fs2 !! join (save_dir ck) tag_file ->
  (forall p, get_checkpoint_file ck tag_file fs1 = Ok p ->
             fs1 !! p = fs2 !! p) ->
  (forall p, f = Some p -> fs1 !! p = fs2 !! p) ->
  load ck f resume tag_file fs1 = load ck f resume tag_file fs2.
Proof.
  intros Htag Hget Hf.
  assert (E1 : has_checkpoint ck tag_file fs1 = has_checkpoint ck tag_file fs2)
    by (unfold has_checkpoint, Fs.exists_; by rewrite Htag).
  assert (E2 : get_checkpoint_file ck tag_file fs1
               = get_checkpoint_file ck tag_file fs2)
    by (unfold get_checkpoint_file, Fs.read_text; by rewrite Htag).
  unfold load. rewrite <- E1, <- E2.
  destruct (resume && has_checkpoint ck tag_file fs1).
  - destruct (get_checkpoint_file ck tag_file fs1) as [p|e] eqn:Eg;
      [| reflexivity].
    cbn [rbind]. destruct (truthy p); [| reflexivity]. cbn [negb].
    unfold _load_file, Fs.torch_load. by rewrite (Hget p eq_refl).
  - cbn [rbind]. destruct f as [p|]; [| reflexivity].
    destruct (truthy p); [| reflexivity]. cbn [negb].
    unfold _load_file, Fs.torch_load. by rewrite (Hf p eq_refl).
Qed.

End CheckpointMore.

(** *** Concrete runs *)

Local Ltac by_eval :=
  first [ reflexivity
        | vm_compute; reflexivity
        | vm_compute; congruence
        | let H := fresh in intros H; vm_compute in H; congruence ].

(** The store after [ck_full] has saved "model_001" with [epoch=7]. *)
Definition fs_saved : gmap string (Fs.file Z) :=
  <["out/last_checkpoint" := Fs.FText "model_001.pth"]>
    (<["out/model_001.pth" := Fs.FCkpt (save_data ck_full kw_epoch)]> ∅).

(** A store whose tag path is a directory. *)
Definition fs_tag_dir : gmap string (Fs.file Z) :=
  <["out/last_checkpoint" := Fs.FDir]> ∅.

Lemma save_idempotent_witness :
  save always ck_full "model_001" "last_checkpoint" kw_epoch fs_saved
    = Ok fs_saved.
Proof.
  apply (save_idempotent always ck_full "model_001" "last_checkpoint"
           kw_epoch ∅ fs_saved). by_eval.
Defined.

Lemma save_keeps_files_witness :
  has_checkpoint ck_full "last_checkpoint" fs_saved = true.
Proof.
  destruct (save_keeps_files always ck_full "model_001" "last_checkpoint"
              kw_epoch ∅ fs_saved) as [_ H]; [by_eval |].
  apply H. discriminate.
Defined.

Lemma save_twice_tags_latest_witness :
  exists fs1 fs2,
    save always ck_full "model_001" default_tag_file kw_epoch ∅ = Ok fs1 /\
    save always ck_full "model_002" default_tag_file kw_epoch fs1 = Ok fs2 /\
    get_checkpoint_file ck_full default_tag_file fs2 = Ok "out/model_002.pth".
Proof.
  destruct (save_twice_tags_latest always ck_full "model_001" "model_002"
              kw_epoch kw_epoch ∅)
    as (fs1 & fs2 & H1 & H2 & H3 & _); try by_eval.
  exists fs1, fs2. split; [exact H1 |]. split; [exact H2 | exact H3].
Defined.

(** A training checkpoint, read by a checkpointer of the model alone. *)
Lemma load_consumes_witness :
  exists rest ck',
    load ck_model_only (Some "out/model_001.pth") false "last_checkpoint"
      fs_saved = Ok (rest, ck') /\
    optimizer ck' = None /\ rest !! "optimizer" = Some 20%Z.
Proof.
  destruct (load_consumes ck_model_only "out/model_001.pth" "last_checkpoint"
              (save_data ck_full kw_epoch) 10%Z fs_saved)
    as (rest & ck' & Hl & _ & _ & Ho & _ & _ & Hr & _); try by_eval.
  exists rest, ck'. split; [exact Hl |]. split; [exact Ho | exact Hr].
Defined.

(** A store whose tag file leads to a file of extra data alone. *)
Definition fs_no_model : gmap string (Fs.file Z) :=
  <["out/last_checkpoint" := Fs.FText "extra.pth"]>
    (<["out/extra.pth" := Fs.FCkpt kw_epoch]> ∅).

Lemma load_missing_model_key_witness :
  load ck_full (Some "out/extra.pth") false "last_checkpoint" fs_no_model
    = Raise KeyError /\
  load ck_model_only None true "last_checkpoint" fs_no_model
    = Raise KeyError.
Proof.
  split.
  - apply (load_missing_model_key ck_full None "out/extra.pth"
             "last_checkpoint" kw_epoch fs_no_model); by_eval.
  - apply (load_missing_model_key ck_model_only None "out/extra.pth"
             "last_checkpoint" kw_epoch fs_no_model); by_eval.
Defined.

Lemma load_tag_is_directory_witness :
  load ck_full (Some "out/model_001.pth") true "last_checkpoint" fs_tag_dir
    = Ok (∅, ck_full).
Proof.
  apply (load_tag_is_directory ck_full (Some "out/model_001.pth")
           "last_checkpoint" fs_tag_dir). by_eval.
Defined.

Lemma load_reads_two_files_witness :
  load ck_full None true "last_checkpoint" fs_saved
  = load ck_full None true "last_checkpoint"
      (<["notes.txt" := Fs.FText "unrelated"]> fs_saved).
Proof.
  apply (load_reads_two_files ck_full None true "last_checkpoint" fs_saved
           (<["notes.txt" := Fs.FText "unrelated"]> fs_saved)).
  - by_eval.
  - intros p H. vm_compute in H. injection H as <-. by_eval.
  - intros p H. discriminate H.
Defined.

End CheckpointMore.

(** * Further properties of the model registry *)

Module ModelsMore.
Import Models.

Local Abbreviation builder arg built := (Config.cfg arg -> result built).

Section ModelsMore.
Context {arg built : Type}.
Variables build_pointnet build_dgcnn build_pointnet2ssg
          build_pointnet2msg build_pns2cnn build_s2cnn
  : builder arg built.

(** X8.  Registration then dispatch: after a new name has been
    registered, [build_model] applies the new builder to every
    configuration of that type and treats every other type as before; a
    second registration of the name raises [KeyError] and changes
    nothing. *)
Theorem register_then_build (name : string) (b b' : builder arg built)
    (reg : gmap string (builder arg built)) (c : Config.cfg arg) :
  reg !! name = None ->
  exists reg',
    register_model_builder name b reg = (Ok tt, reg') /\
    (Config.MODEL_TYPE c = name -> build_model reg' c = b c) /\
    (Config.MODEL_TYPE c <> name -> build_model reg' c = build_model reg c) /\
    register_model_builder name b' reg' = (Raise KeyError, reg').
Proof.
  intros Hnew. exists (<[name := b]> reg).
  unfold register_model_builder, PyDict.mem, build_model.
  rewrite Hnew. split; [reflexivity |]. split; [| split].
  - intros ->. by rewrite lookup_insert_eq.
  - intros Hne. by rewrite lookup_insert_ne.
  - by rewrite lookup_insert_eq.
Qed.

(** X9.  The six names the module registers cannot be registered again:
    on the registry as defined, [register_model_builder] raises
    [KeyError] for each of them whatever the builder, and the registry
    stays as it is. *)
Theorem builtin_names_protected (name : string) (b : builder arg built) :
  In name ModelsFacts.registered_names ->
  register_model_builder name b
    (_MODEL_BUILDERS build_pointnet build_dgcnn build_pointnet2ssg
       build_pointnet2msg build_pns2cnn build_s2cnn)
  = (Raise KeyError,
     _MODEL_BUILDERS build_pointnet build_dgcnn build_pointnet2ssg
       build_pointnet2msg build_pns2cnn build_s2cnn).
Proof.
  intros H.
  destruct (ModelsFacts.initial_lookup_Some build_pointnet build_dgcnn
              build_pointnet2ssg build_pointnet2msg build_pns2cnn
              build_s2cnn name H) as [b0 Hb0].
  unfold register_model_builder, PyDict.mem. by rewrite Hb0.
Qed.

End ModelsMore.

Import ModelsFacts.

Lemma register_then_build_witness :
  exists reg',
    register_model_builder "MYNET" (named "mynet") registry0 = (Ok tt, reg') /\
    build_model reg' (cfg_of_type "MYNET") = Ok "mynet" /\
    build_model reg' (cfg_of_type "DGCNN") = Ok "dgcnn".
Proof.
  destruct (register_then_build "MYNET" (named "mynet") (named "other")
              registry0 (cfg_of_type "MYNET")) as (reg' & Hr & Hb & _);
    [vm_compute; reflexivity |].
  destruct (register_then_build "MYNET" (named "mynet") (named "other")
              registry0 (cfg_of_type "DGCNN")) as (reg'' & Hr' & _ & Hb' & _);
    [vm_compute; reflexivity |].
  exists reg'. split; [exact Hr |]. split; [by apply Hb |].
  rewrite Hr in Hr'. injection Hr' as <-.
  rewrite Hb' by discriminate. vm_compute. reflexivity.
Defined.

Lemma builtin_names_protected_witness :
  register_model_builder "PN2SSG" (named "mine") registry0
    = (Raise KeyError, registry0).
Proof.
  apply (builtin_names_protected (named "pointnet") (named "dgcnn")
           (named "pn2ssg") (named "pn2msg") (named "pns2cnn")
           (named "s2cnn") "PN2SSG" (named "mine")).
  simpl. tauto.
Defined.

End ModelsMore.

(** * Further properties of the data pipeline *)

Module DataMore.
Import Data.
Local Open Scope list_scope.

(** The configuration [c] with [DATALOADER.DROP_LAST] set or removed. *)
Definition with_drop_last {arg} (c : Config.cfg arg) (v : option bool)
  : Config.cfg arg :=
  Config.mkCfg (Config.MODEL_TYPE c) (Config.INPUT_NUM_POINTS c)
    (Config.DATASET_TYPE c) (Config.DATASET_ROOT_DIR c)
    (Config.DATASET_TRAIN c) (Config.DATASET_VAL c) (Config.DATASET_TEST c)
    (Config.DATALOADER_NUM_WORKERS c) v (Config.TRAIN_BATCH_SIZE c)
    (Config.TRAIN_AUGMENTATION c) (Config.TEST_BATCH_SIZE c)
    (Config.TEST_AUGMENTATION c).

Section DataMore.
Context {arg transform dataset : Type}.
Variable as_str : arg -> option string.
Variable T_getattr : string -> option (list arg -> result transform).
Variables PointCloudToTensor PointCloudTensorTranspose : transform.
Variable Compose : list transform -> transform.
Variables ModelNetH5 ShapeNetH5 KITTI
  : dataset_args (transform:=transform) -> result dataset.
Variable DataLoader_check : DataLoader (dataset:=dataset) -> result unit.

Local Abbreviation build_aug' := (build_aug as_str T_getattr).
Local Abbreviation build_augs' := (build_augs as_str T_getattr).
Local Abbreviation build_transform' :=
  (build_transform as_str T_getattr PointCloudToTensor
     PointCloudTensorTranspose Compose).
Local Abbreviation build_dataset' :=
  (build_dataset as_str T_getattr PointCloudToTensor
     PointCloudTensorTranspose Compose ModelNetH5 ShapeNetH5 KITTI).
Local Abbreviation build_dataloader' :=
  (build_dataloader as_str T_getattr PointCloudToTensor
     PointCloudTensorTranspose Compose ModelNetH5 ShapeNetH5 KITTI
     DataLoader_check).

Lemma build_augs_ok (augs : list (Config.aug arg)) (ts : list transform) :
  build_augs' augs = Ok ts <->
  Forall2 (fun a t => build_aug' a = Ok t) augs ts.
Proof.
  revert ts. induction augs as [|a augs IH]; intros ts; simpl.
  - split.
    + intros [= <-]. constructor.
    + intros H. by inversion H.
  - split.
    + destruct (build_aug as_str T_getattr a) as [t|e] eqn:Ea;
        [| discriminate].
      cbn [rbind].
      destruct (build_augs as_str T_getattr augs) as [ts'|e] eqn:Es;
        [| discriminate].
      cbn [rbind]. intros [= <-]. constructor; [done |]. by apply IH.
    + intros H. inversion H as [|a' t augs' ts' Ha Hts]; subst.
      rewrite Ha. cbn [rbind].
      apply IH in Hts. rewrite Hts. reflexivity.
Qed.

Lemma build_augs_first_error (pre post : list (Config.aug arg))
    (a : Config.aug arg) (e : exn) :
  Forall (fun a' => exists t, build_aug' a' = Ok t) pre ->
  build_aug' a = Raise e ->
  build_augs' (pre ++ a :: post) = Raise e.
Proof.
  intros Hpre Ha. induction Hpre as [|a' pre [t Ht] _ IH]; simpl.
  - by rewrite Ha.
  - rewrite Ht. cbn [rbind]. by rewrite IH.
Qed.

(** X10.  [build_transform] yields the composition of [PointCloudToTensor],
    one transform per augmentation entry in the order of the list, and
    [PointCloudTensorTranspose], reading [TRAIN.AUGMENTATION] for training
    and [TEST.AUGMENTATION] otherwise; it succeeds exactly when every entry
    can be built. *)
Theorem build_transform_shape (c : Config.cfg arg) (is_train : bool)
    (t : transform) :
  let augs := if is_train then Config.TRAIN_AUGMENTATION c
              else Config.TEST_AUGMENTATION c in
  build_transform' c is_train = Ok t <->
  exists ts,
    Forall2 (fun a t' => build_aug' a = Ok t') augs ts /\
    t = Compose (PointCloudToTensor :: ts ++ [PointCloudTensorTranspose]).
Proof.
  intros augs. unfold build_transform. fold augs. split.
  - destruct (build_augs as_str T_getattr augs) as [ts|e] eqn:E;
      [| discriminate].
    cbn [rbind]. intros [= <-]. exists ts. split; [| reflexivity].
    by apply build_augs_ok.
  - intros (ts & Hts & ->). apply build_augs_ok in Hts.
    rewrite Hts. reflexivity.
Qed.

(** X11.  [build_transform] raises the exception of the first augmentation
    entry that cannot be built (an unknown transform name gives
    [AttributeError], an empty sequence [IndexError]); the entries after
    it play no part. *)
Theorem build_transform_first_error (c : Config.cfg arg) (is_train : bool)
    (pre post : list (Config.aug arg)) (a : Config.aug arg) (e : exn) :
  (if is_train then Config.TRAIN_AUGMENTATION c
   else Config.TEST_AUGMENTATION c) = pre ++ a :: post ->
  Forall (fun a' => exists t, build_aug' a' = Ok t) pre ->
  build_aug' a = Raise e ->
  build_transform' c is_train = Raise e.
Proof.
  intros Haugs Hpre Ha. unfold build_transform. rewrite Haugs.
  by rewrite (build_augs_first_error pre post a e Hpre Ha).
Qed.

(** X12.  [build_dataset] has no check of its own on the mode: every mode
    other than "train" and "val" is handled as "test", and "val" differs
    from "test" only in the dataset names ([DATASET.VAL]), using the test
    augmentation as well. *)
Theorem build_dataset_mode_fallthrough (c : Config.cfg arg) (mode : string) :
  (mode <> "train" -> mode <> "val" ->
     build_dataset' c mode = build_dataset' c "test") /\
  (Config.DATASET_VAL c = Config.DATASET_TEST c ->
     build_dataset' c "val" = build_dataset' c "test").
Proof.
  split.
  - intros H1 H2. unfold build_dataset.
    apply String.eqb_neq in H1, H2. by rewrite H1, H2.
  - intros E. unfold build_dataset. simpl String.eqb. cbv iota.
    by rewrite E.
Qed.

(** X13.  Outside training [DATALOADER.DROP_LAST] is not read: for every
    mode other than "train", [build_dataloader] gives the same result
    whether the key is defined or not, and a loader it returns neither
    shuffles nor drops the last batch. *)
Theorem build_dataloader_eval_ignores_drop_last (c : Config.cfg arg)
    (mode : string) (v : option bool) :
  mode <> "train" ->
  build_dataloader' (with_drop_last c v) mode = build_dataloader' c mode /\
  forall dl, build_dataloader' c mode = Ok dl ->
             shuffle dl = false /\ drop_last dl = false.
Proof.
  intros Hmode. apply String.eqb_neq in Hmode. split.
  - unfold build_dataloader, build_dataset, build_transform.
    rewrite Hmode. reflexivity.
  - intros dl. unfold build_dataloader. rewrite Hmode.
    destruct (negb _); [discriminate |].
    destruct (build_dataset _ _ _ _ _ _ _ _ _ _) as [ds|e];
      [| discriminate].
    cbn [rbind].
    destruct (DataLoader_check _) as [[]|e]; [| discriminate].
    cbn [rbind]. by intros [= <-].
Qed.

(** X14.  For training the key is required: on a configuration that does
    not define [DATALOADER.DROP_LAST] (as the tree of [defaults.py]),
    [build_dataloader(cfg, "train")] raises [AttributeError] once the
    dataset has been built. *)
Theorem build_dataloader_train_needs_drop_last (c : Config.cfg arg)
    (ds : dataset) :
  Config.DATALOADER_DROP_LAST c = None ->
  build_dataset' c "train" = Ok ds ->
  build_dataloader' c "train" = Raise AttributeError.
Proof.
  intros Hnone Hds. unfold build_dataloader. simpl existsb. cbn [negb].
  rewrite Hds. cbn [rbind]. simpl String.eqb. cbv iota.
  by rewrite Hnone.
Qed.

(** X15.  For a mode among "train", "val" and "test", [build_dataloader]
    fails as [build_dataset] does: with its exception, in particular with
    [NotImplementedError] for a [DATASET.TYPE] other than "ModelNetH5",
    "ShapeNetH5" and "KITTI" whose transforms can be built. *)
Theorem build_dataloader_dataset_error (c : Config.cfg arg) (mode : string) :
  In mode modes ->
  (forall e, build_dataset' c mode = Raise e ->
             build_dataloader' c mode = Raise e) /\
  (Config.DATASET_TYPE c <> "ModelNetH5" ->
   Config.DATASET_TYPE c <> "ShapeNetH5" ->
   Config.DATASET_TYPE c <> "KITTI" ->
   (exists t, build_transform' c (String.eqb mode "train") = Ok t) ->
   build_dataloader' c mode = Raise NotImplementedError).
Proof.
  intros Hmode.
  assert (Hassert : existsb (String.eqb mode) modes = true).
  { apply existsb_exists. exists mode. split; [done | apply String.eqb_refl]. }
  assert (H1 : forall e, build_dataset' c mode = Raise e ->
                         build_dataloader' c mode = Raise e).
  { intros e He. unfold build_dataloader. rewrite Hassert. cbn [negb].
    by rewrite He. }
  split; [exact H1 |].
  intros T1 T2 T3 [t Ht]. apply H1. unfold build_dataset.
  rewrite Ht. cbn [rbind].
  apply String.eqb_neq in T1, T2, T3. by rewrite T1, T2, T3.
Qed.

End DataMore.

Import DataFacts.

(** *** Concrete runs *)

Definition build_transform0 : Config.cfg string -> bool -> result nat :=
  build_transform (fun a => Some a) T0 0 1 (fun l => length l).

Definition build_dataset0
  : Config.cfg string -> string -> result (@dataset_args nat) :=
  build_dataset (fun a => Some a) T0 0 1 (fun l => length l)
    (fun args => Ok args) (fun args => Ok args) (fun args => Ok args).

(** A configuration whose test augmentation names a transform that the
    transform module lacks. *)
Definition cfg_bad_aug : Config.cfg string :=
  Config.mkCfg "POINTNET" 1024 "ModelNetH5" "data/modelnet40" ["train"]
    ["test"] ["test"] 4 (Some true) 32 [Config.AugName "PointCloudRotate"]
    16 [Config.AugName "PointCloudRotate"; Config.AugName "Nothing";
        Config.AugSeq []].

Lemma build_transform_shape_witness :
  build_transform0 cfg_modelnet true = Ok 3.
Proof.
  apply (build_transform_shape (fun a => Some a) T0 0 1 (fun l => length l)
           cfg_modelnet true 3).
  exists [2]. split; [| reflexivity].
  constructor; [reflexivity | constructor].
Defined.

Lemma build_transform_first_error_witness :
  build_transform0 cfg_bad_aug false = Raise AttributeError.
Proof.
  apply (build_transform_first_error (fun a => Some a) T0 0 1
           (fun l => length l) cfg_bad_aug false
           [Config.AugName "PointCloudRotate"] [Config.AugSeq []]
           (Config.AugName "Nothing") AttributeError).
  - reflexivity.
  - constructor; [by exists 2 | constructor].
  - reflexivity.
Defined.

Lemma build_dataset_mode_fallthrough_witness :
  build_dataset0 cfg_modelnet "evaluation" = build_dataset0 cfg_modelnet "test"
  /\ build_dataset0 cfg_modelnet "val" = build_dataset0 cfg_modelnet "test".
Proof.
  destruct (build_dataset_mode_fallthrough (fun a => Some a) T0 0 1
              (fun l => length l) (fun args => Ok args) (fun args => Ok args)
              (fun args => Ok args) cfg_modelnet "evaluation") as [H1 _].
  destruct (build_dataset_mode_fallthrough (fun a => Some a) T0 0 1
              (fun l => length l) (fun args => Ok args) (fun args => Ok args)
              (fun args => Ok args) cfg_modelnet "val") as [_ H2].
  split; [apply H1; discriminate | apply H2; reflexivity].
Defined.

Lemma build_dataloader_eval_ignores_drop_last_witness :
  build_dataloader0 (with_drop_last cfg_modelnet None) "test"
    = build_dataloader0 cfg_modelnet "test".
Proof.
  apply (build_dataloader_eval_ignores_drop_last (fun a => Some a) T0 0 1
           (fun l => length l) (fun args => Ok args) (fun args => Ok args)
           (fun args => Ok args) (fun _ => Ok tt) cfg_modelnet "test" None).
  discriminate.
Defined.

Lemma build_dataloader_train_needs_drop_last_witness :
  build_dataloader0 (with_drop_last cfg_modelnet None) "train"
    = Raise AttributeError.
Proof.
  apply (build_dataloader_train_needs_drop_last (fun a => Some a) T0 0 1
           (fun l => length l) (fun args => Ok args) (fun args => Ok args)
           (fun args => Ok args) (fun _ => Ok tt)
           (with_drop_last cfg_modelnet None)
           (mkDatasetArgs "data/modelnet40" ["train"] false 1024%Z 3));
    reflexivity.
Defined.

Lemma build_dataloader_dataset_error_witness :
  build_dataloader0 cfg_scannet "val" = Raise NotImplementedError.
Proof.
  apply (build_dataloader_dataset_error (fun a => Some a) T0 0 1
           (fun l => length l) (fun args => Ok args) (fun args => Ok args)
           (fun args => Ok args) (fun _ => Ok tt) cfg_scannet "val");
    try discriminate.
  - simpl. tauto.
  - by exists 2.
Defined.

End DataMore.

(** * The metric list *)

(** [MetricList] of [shaper/models/metric.py]: a list of metric modules,
    each a function from the arguments of the call to a dictionary (or an
    exception). *)

Module MetricList.
Section MetricList.
Context {A V : Type}.

(** The loop of [forward]: each metric in turn is called with the
    arguments of the call and its dictionary merged into [metrics] with
    [update]. *)
Fixpoint forward_from (metrics : gmap string V)
    (self : list (A -> result (gmap string V))) (args : A)
  : result (gmap string V) :=
  match self with
  | [] => Ok metrics
  | metric :: rest =>
      d <-- metric args ;;
      forward_from (PyDict.update metrics d) rest args
  end.

(** [MetricList.forward], for the arguments [args] of the call. *)
Definition forward (self : list (A -> result (gmap string V))) (args : A)
  : result (gmap string V) :=
  forward_from ∅ self args.

End MetricList.
End MetricList.

Module MetricMore.
Import Metric MetricFacts.
Local Open Scope list_scope.

Section MetricListFacts.
Context {A V : Type}.

Implicit Types (self : list (A -> result (gmap string V)))
               (ds : list (gmap string V)).

(** [v] is what the last dictionary of [ds] that has the key [k] holds
    for it. *)
Definition last_value ds (k : string) (v : V) : Prop :=
  exists i d, ds !! i = Some d /\ d !! k = Some v /\
    forall j d', (i < j)%nat -> ds !! j = Some d' -> d' !! k = None.

Definition merge ds : gmap string V :=
  foldl (fun acc d => PyDict.update acc d) ∅ ds.

Lemma forward_from_ok self ds (acc : gmap string V) (args : A) :
  Forall2 (fun metric d => metric args = Ok d) self ds ->
  MetricList.forward_from acc self args
    = Ok (foldl (fun acc d => PyDict.update acc d) acc ds).
Proof.
  intros H. revert acc.
  induction H as [|metric d self ds Hm _ IH]; intros acc; simpl;
    [reflexivity |].
  rewrite Hm. cbn [rbind]. apply IH.
Qed.

Lemma merge_lookup ds (k : string) (v : V) :
  merge ds !! k = Some v <-> last_value ds k v.
Proof.
  unfold merge. induction ds as [|d ds IH] using rev_ind.
  - simpl. split; [by rewrite lookup_empty |].
    intros (i & d & Hi & _). by rewrite lookup_nil in Hi.
  - rewrite foldl_app. simpl. unfold PyDict.update at 1.
    rewrite lookup_union_Some_raw. split.
    + intros [Hd | [Hd Hrest]].
      * exists (length ds), d. split; [by apply list_lookup_middle |].
        split; [exact Hd |].
        intros j d' Hj Hj'. apply lookup_lt_Some in Hj'.
        rewrite length_app in Hj'. simpl in Hj'. lia.
      * apply IH in Hrest as (i & d0 & Hi & Hk & Hlater).
        pose proof (lookup_lt_Some _ _ _ Hi) as Hlt.
        exists i, d0. split; [by rewrite lookup_app_l |].
        split; [exact Hk |].
        intros j d' Hj Hj'.
        destruct (decide (j < length ds)%nat) as [Hjl | Hjl].
        -- rewrite lookup_app_l in Hj' by done. by apply (Hlater j).
        -- rewrite lookup_app_r in Hj' by lia.
           destruct (j - length ds)%nat as [|n] eqn:E; simpl in Hj';
             [by injection Hj' as <- | by rewrite lookup_nil in Hj'].
    + intros (i & d0 & Hi & Hk & Hlater).
      destruct (decide (i < length ds)%nat) as [Hil | Hil].
      * right. split.
        -- apply (Hlater (length ds) d); [done |].
           by apply list_lookup_middle.
        -- apply IH. exists i, d0.
           rewrite lookup_app_l in Hi by done.
           split; [exact Hi |]. split; [exact Hk |].
           intros j d' Hj Hj'. apply (Hlater j d' Hj).
           rewrite lookup_app_l; [done |]. by apply lookup_lt_Some in Hj'.
      * left. rewrite lookup_app_r in Hi by lia.
        destruct (i - length ds)%nat as [|n] eqn:E; simpl in Hi;
          [by injection Hi as <- | by rewrite lookup_nil in Hi].
Qed.

(** X16.  When every metric of the list returns a dictionary,
    [MetricList.forward] returns their merge: a key is present if some
    metric reports it, with the value of the last metric that does. *)
Theorem MetricList_forward_merge self ds (args : A) :
  Forall2 (fun metric d => metric args = Ok d) self ds ->
  exists metrics,
    MetricList.forward self args = Ok metrics /\
    forall k v, metrics !! k = Some v <-> last_value ds k v.
Proof.
  intros H. exists (merge ds). split.
  - unfold MetricList.forward. by rewrite (forward_from_ok self ds).
  - intros k v. apply merge_lookup.
Qed.

(** X17.  [MetricList.forward] raises the exception of the first metric
    that fails; the metrics after it are not called. *)
Theorem MetricList_forward_first_error
    (pre post : list (A -> result (gmap string V)))
    (metric : A -> result (gmap string V)) (args : A) (e : exn) :
  Forall (fun m => exists d, m args = Ok d) pre ->
  metric args = Raise e ->
  MetricList.forward (pre ++ metric :: post) args = Raise e.
Proof.
  intros Hpre He. unfold MetricList.forward. generalize (∅ : gmap string V).
  induction Hpre as [|m pre [d Hd] _ IH]; intros acc; simpl.
  - by rewrite He.
  - rewrite Hd. cbn [rbind]. apply IH.
Qed.

End MetricListFacts.

(** *** Classification accuracy: shape and errors *)

Lemma float_binary (bs : list bool) :
  Forall (fun x : Q => x = 0%Q \/ x = 1%Q) (float bs).
Proof.
  unfold float. induction bs as [|[] bs IH]; simpl; constructor; auto.
Qed.

Lemma argmax1_length (t : list (list Q)) (js : list Z) :
  argmax1 t = Ok js -> length js = length t.
Proof.
  revert js. induction t as [|row t IH]; intros js; simpl.
  - by intros [= <-].
  - destruct (argmax_row row) as [j|e]; [| discriminate]. cbn [rbind].
    destruct (argmax1 t) as [js'|e]; [| discriminate]. cbn [rbind].
    intros [= <-]. simpl. by rewrite (IH js').
Qed.

Lemma argmax1_empty_row (t : list (list Q)) :
  In [] t -> argmax1 t = Raise IndexError.
Proof.
  induction t as [|row t IH]; simpl; [done |].
  intros [-> | H]; [reflexivity |].
  destruct row as [|x r]; [reflexivity |].
  simpl. by rewrite (IH H).
Qed.

Lemma eq_length (a b : list Z) (r : list bool) :
  eq a b = Ok r ->
  (length a = length b /\ length r = length a) \/
  (length b = 1%nat /\ length r = length a) \/
  (length a = 1%nat /\ length r = length b).
Proof.
  unfold eq. destruct (Nat.eqb (length a) (length b)) eqn:E.
  - apply Nat.eqb_eq in E. intros [= <-]. left.
    by rewrite eq_zip_length.
  - destruct a as [|x [|x' a]], b as [|y [|y' b]]; simpl in E;
      try discriminate;
      intros H; injection H as H; subst r; simpl; rewrite ?length_map;
      first [ right; left; split; reflexivity
            | right; right; split; reflexivity ].
Qed.

(** X18.  Whatever the inputs, a result of [ClsAccuracy.forward] is a
    dictionary with the single key "cls_acc" whose entries are 0.0 or 1.0;
    there is one entry per sample when there are as many labels as
    samples, and otherwise one operand has a single element, which is
    broadcast, and there is one entry per element of the other. *)
Theorem ClsAccuracy_forward_output (preds : gmap string (list (list Q)))
    (labels : gmap string (list Z)) (out : gmap string (list Q)) :
  ClsAccuracy_forward preds labels = Ok out ->
  exists logits lab a,
    preds !! "cls_logit" = Some logits /\
    labels !! "cls_label" = Some lab /\
    out = <["cls_acc" := a]> ∅ /\
    Forall (fun x : Q => x = 0%Q \/ x = 1%Q) a /\
    ((length logits = length lab /\ length a = length logits) \/
     (length lab = 1%nat /\ length a = length logits) \/
     (length logits = 1%nat /\ length a = length lab)).
Proof.
  unfold ClsAccuracy_forward, getitem.
  destruct (preds !! "cls_logit") as [logits|]; [| discriminate].
  destruct (labels !! "cls_label") as [lab|]; [| discriminate].
  cbn [rbind].
  destruct (argmax1 logits) as [js|e] eqn:Ejs; [| discriminate].
  cbn [rbind].
  destruct (eq js lab) as [bs|e] eqn:Eeq; [| discriminate].
  cbn [rbind]. intros [= <-].
  apply argmax1_length in Ejs. apply eq_length in Eeq.
  exists logits, lab, (float bs).
  split; [reflexivity |]. split; [reflexivity |]. split; [reflexivity |].
  split; [apply float_binary |].
  unfold float. rewrite length_map, <- Ejs. exact Eeq.
Qed.

(** X19.  The errors of [ClsAccuracy.forward]: a missing "cls_logit" or
    "cls_label" key raises [KeyError]; a sample without scores raises an
    index error; and operands of different sizes, neither of size one,
    cannot be compared. *)
Theorem ClsAccuracy_forward_errors (preds : gmap string (list (list Q)))
    (labels : gmap string (list Z)) :
  (preds !! "cls_logit" = None \/ labels !! "cls_label" = None ->
     ClsAccuracy_forward preds labels = Raise KeyError) /\
  (forall logits lab,
     preds !! "cls_logit" = Some logits ->
     labels !! "cls_label" = Some lab ->
     (In [] logits -> ClsAccuracy_forward preds labels = Raise IndexError) /\
     ((forall row, In row logits -> row <> []) ->
      length logits <> length lab ->
      length logits <> 1%nat -> length lab <> 1%nat ->
      ClsAccuracy_forward preds labels = Raise RuntimeError)).
Proof.
  unfold ClsAccuracy_forward, getitem. split.
  - intros [-> | H]; [reflexivity |].
    destruct (preds !! "cls_logit"); [| reflexivity]. by rewrite H.
  - intros logits lab -> ->. cbn [rbind]. split.
    + intros H. by rewrite (argmax1_empty_row _ H).
    + intros Hrows Hne H1 H2.
      destruct (argmax1_first_max logits Hrows) as (js & Hjs & Hlen & _).
      rewrite Hjs. cbn [rbind]. unfold eq.
      assert (E : Nat.eqb (length js) (length lab) = false)
        by (apply Nat.eqb_neq; lia).
      rewrite E.
      destruct lab as [|y [|y' lab]]; simpl in *; try lia;
        destruct js as [|x [|x' js]]; simpl in *; try lia; reflexivity.
Qed.

(** *** Concrete runs *)

Definition acc_metric (x : Z) : result (gmap string Z) :=
  Ok (<["acc" := x]> (<["n" := 1%Z]> ∅)).
Definition loss_metric (x : Z) : result (gmap string Z) :=
  Ok (<["acc" := 0%Z]> (<["loss" := (x + 1)%Z]> ∅)).
Definition bad_metric (x : Z) : result (gmap string Z) := Raise KeyError.

Lemma MetricList_forward_merge_witness :
  exists metrics,
    MetricList.forward [acc_metric; loss_metric] 5%Z = Ok metrics /\
    metrics !! "acc" = Some 0%Z /\ metrics !! "n" = Some 1%Z.
Proof.
  destruct (MetricList_forward_merge [acc_metric; loss_metric]
              [<["acc" := 5%Z]> (<["n" := 1%Z]> ∅);
               <["acc" := 0%Z]> (<["loss" := 6%Z]> ∅)] 5%Z)
    as (metrics & Hm & Hl).
  - repeat constructor.
  - exists metrics. split; [exact Hm |]. split.
    + apply Hl. exists 1%nat, (<["acc" := 0%Z]> (<["loss" := 6%Z]> ∅)).
      split; [reflexivity |]. split; [reflexivity |].
      intros [|[|j]] d' Hj Hd'; try lia. discriminate Hd'.
    + apply Hl. exists 0%nat, (<["acc" := 5%Z]> (<["n" := 1%Z]> ∅)).
      split; [reflexivity |]. split; [reflexivity |].
      intros [|[|j]] d' Hj Hd'; try lia; [| discriminate Hd'].
      injection Hd' as <-. reflexivity.
Defined.

Lemma MetricList_forward_first_error_witness :
  MetricList.forward [acc_metric; bad_metric; loss_metric] 5%Z
    = Raise KeyError.
Proof.
  apply (MetricList_forward_first_error [acc_metric] [loss_metric]
           bad_metric 5%Z KeyError).
  - constructor; [| constructor]. eexists. reflexivity.
  - reflexivity.
Defined.

(** One label, compared with each of two samples. *)
Definition labels_one : gmap string (list Z) := <["cls_label" := [1%Z]]> ∅.

Lemma ClsAccuracy_forward_output_witness :
  exists a,
    ClsAccuracy_forward preds0 labels_one = Ok (<["cls_acc" := a]> ∅) /\
    length a = 2%nat.
Proof.
  destruct (ClsAccuracy_forward_output preds0 labels_one
              (<["cls_acc" := [1%Q; 0%Q]]> ∅) eq_refl)
    as (logits & lab & a & Hp & Hl & Ho & _ & Hlen).
  exists a. split.
  - rewrite <- Ho. reflexivity.
  - vm_compute in Hp, Hl. injection Hp as <-. injection Hl as <-.
    simpl in Hlen. destruct Hlen as [[H _] | [[_ H] | [H _]]];
      [discriminate H | exact H | discriminate H].
Defined.

Lemma ClsAccuracy_forward_errors_witness :
  ClsAccuracy_forward ∅ labels0 = Raise KeyError /\
  ClsAccuracy_forward preds0 (<["cls_label" := [1%Z; 0%Z; 1%Z]]> ∅)
    = Raise RuntimeError.
Proof.
  split.
  - apply (ClsAccuracy_forward_errors ∅ labels0). by left.
  - apply (ClsAccuracy_forward_errors preds0
             (<["cls_label" := [1%Z; 0%Z; 1%Z]]> ∅))
      with (logits := [[1 # 10; 9 # 10; 9 # 10]; [8 # 10; 2 # 10; 0 # 1]])
           (lab := [1%Z; 0%Z; 1%Z]);
      try reflexivity; try (simpl; lia).
    intros row [<- | [<- | []]]; discriminate.
Defined.

End MetricMore.

(** * Further properties of the few-shot dataset *)

Module FewShotMore.
Import FewShot FewShotFacts.
Local Open Scope list_scope.

(** [__len__(self)] *)
Definition __len__ {point} (self : ShapeNetFewShot (point:=point)) : nat :=
  length (meta_data self).

Section FewShotMore.
Context {point rng : Type}.
Variable np_random_permutation : rng -> list nat -> list nat * rng.
Variable _load_pts : string -> result (list point).

(** The generator returns a rearrangement of its argument. *)
Hypothesis np_random_permutation_perm :
  forall g l, Permutation (np_random_permutation g l).1 l.

Local Abbreviation make_choice' := (make_choice np_random_permutation).
Local Abbreviation getitem' := (__getitem__ np_random_permutation _load_pts).

Implicit Types (self : ShapeNetFewShot (point:=point)) (pts : list point).

(** The rows [__getitem__] returns for an entry that is found and loaded:
    those selected by the index array, passed through the transform. *)
Lemma getitem_loaded self (index : Z) (g : rng) (md : meta) (ind : nat) pts :
  list_getitem (meta_data self) index = Ok md ->
  classes_to_ind_map self !! class md = Some ind ->
  _load_pts (pts_path md) = Ok pts ->
  getitem' self index g =
    (rows <-- take_rows pts (make_choice' self (length pts) g).1 ;;
     Ok (mkItem (match transform self with
                 | Some t => t rows
                 | None => rows
                 end) ind,
         (make_choice' self (length pts) g).2)).
Proof.
  intros Hmd Hind Hpts. unfold __getitem__, Metric.getitem.
  rewrite Hmd. cbn [rbind]. rewrite Hind. cbn [rbind]. rewrite Hpts.
  cbn [rbind]. by destruct (make_choice _ _ _ _) as [choice g'].
Qed.

Lemma take_rows_prefix pts (n : nat) :
  (n <= length pts)%nat -> take_rows pts (seq 0 n) = Ok (take n pts).
Proof. intros H. by apply (FewShotFacts.take_rows_seq [] pts n). Qed.

Lemma take_rows_all pts : take_rows pts (seq 0 (length pts)) = Ok pts.
Proof. rewrite take_rows_prefix by lia. by rewrite firstn_all. Qed.

Lemma take_rows_omap pts (choice : list nat) (rows : list point) :
  take_rows pts choice = Ok rows ->
  rows = omap (fun i => pts !! i) choice.
Proof.
  revert rows. induction choice as [|i choice IH]; intros rows.
  - by intros [= <-].
  - simpl. destruct (pts !! i) as [p|] eqn:Hi; [| discriminate].
    destruct (take_rows pts choice) as [rows'|e]; [| discriminate].
    cbn [rbind]. intros [= <-]. by rewrite (IH rows' eq_refl).
Qed.

Lemma take_rows_app pts (c1 c2 : list nat) (r1 r2 : list point) :
  take_rows pts c1 = Ok r1 -> take_rows pts c2 = Ok r2 ->
  take_rows pts (c1 ++ c2) = Ok (r1 ++ r2).
Proof.
  revert r1. induction c1 as [|i c1 IH]; intros r1; simpl.
  - by intros [= <-].
  - destruct (pts !! i) as [p|]; [| discriminate].
    destruct (take_rows pts c1) as [r1'|e]; [| discriminate]. cbn [rbind].
    intros [= <-] H2. by rewrite (IH r1' eq_refl H2).
Qed.

(** X20.  For a valid index, a known class and a point file that loads
    as an array (of one dimension at least, [pts] being its elements
    along the first axis), [__getitem__] without a transform succeeds
    whatever [shuffle_points] and [num_points] are: selecting the rows
    never fails.  The label is the index of the class, every returned
    row is a row of the stored cloud, and for [num_points > 0] no more
    than [num_points] rows are returned. *)
Theorem getitem_rows_from_cloud self (index : Z) (g : rng) (md : meta)
    (ind : nat) pts :
  list_getitem (meta_data self) index = Ok md ->
  classes_to_ind_map self !! class md = Some ind ->
  _load_pts (pts_path md) = Ok pts ->
  transform self = None ->
  exists it g',
    getitem' self index g = Ok (it, g') /\
    cls_labels it = ind /\
    (forall p, In p (points it) -> In p pts) /\
    ((0 < num_points self)%Z ->
       (Z.of_nat (length (points it)) <= num_points self)%Z).
Proof.
  intros Hmd Hind Hpts Ht.
  rewrite (getitem_loaded self index g md ind pts Hmd Hind Hpts).
  destruct (take_rows_ok pts _
              (make_choice_bound np_random_permutation
                 np_random_permutation_perm self (length pts) g))
    as (rows & Hrows & Hall).
  rewrite Hrows. cbn [rbind]. rewrite Ht. eexists _, _.
  split; [reflexivity |]. split; [reflexivity |]. cbn [points]. split.
  - intros p Hp. apply list_elem_of_In in Hp.
    destruct (list_elem_of_lookup_1 _ _ Hp) as [k Hk].
    destruct (Forall2_lookup_r _ _ _ _ _ Hall Hk) as (i & _ & Hi).
    apply list_elem_of_In. by apply list_elem_of_lookup_2 with i.
  - intros Hpos.
    pose proof (make_choice_length_le np_random_permutation
                  np_random_permutation_perm self (length pts) g Hpos)
      as Hle.
    rewrite <- (Forall2_length _ _ _ Hall). lia.
Qed.

(** X21.  Cropping.  Without shuffling and without a transform, a cloud of
    at least [num_points > 0] points gives its first [num_points] points
    in their order, and the random generator is not used. *)
Theorem getitem_crop self (index : Z) (g : rng) (md : meta) (ind : nat) pts :
  list_getitem (meta_data self) index = Ok md ->
  classes_to_ind_map self !! class md = Some ind ->
  _load_pts (pts_path md) = Ok pts ->
  shuffle_points self = false -> transform self = None ->
  (0 < num_points self)%Z ->
  (num_points self <= Z.of_nat (length pts))%Z ->
  getitem' self index g
    = Ok (mkItem (take (Z.to_nat (num_points self)) pts) ind, g).
Proof.
  intros Hmd Hind Hpts Hsh Ht Hpos Hle.
  rewrite (getitem_loaded self index g md ind pts Hmd Hind Hpts).
  unfold make_choice. rewrite Hsh, Ht.
  apply Z.ltb_lt in Hpos. rewrite Hpos.
  pose proof Hle as Hle'. apply Z.leb_le in Hle'. rewrite Hle'.
  cbn [fst snd]. rewrite take_seq, Nat.min_l by lia.
  rewrite take_rows_prefix by lia. reflexivity.
Qed.

(** X22.  With [num_points <= 0] (the default is -1) the whole cloud is
    returned: as stored when points are not shuffled, and as a
    rearrangement of it when they are. *)
Theorem getitem_whole_cloud self (index : Z) (g : rng) (md : meta)
    (ind : nat) pts :
  list_getitem (meta_data self) index = Ok md ->
  classes_to_ind_map self !! class md = Some ind ->
  _load_pts (pts_path md) = Ok pts ->
  transform self = None ->
  (num_points self <= 0)%Z ->
  (shuffle_points self = false ->
     getitem' self index g = Ok (mkItem pts ind, g)) /\
  (shuffle_points self = true ->
     exists rows g',
       getitem' self index g = Ok (mkItem rows ind, g') /\
       Permutation rows pts).
Proof.
  intros Hmd Hind Hpts Ht Hnp.
  rewrite (getitem_loaded self index g md ind pts Hmd Hind Hpts).
  unfold make_choice. rewrite Ht.
  assert (E : (0 <? num_points self)%Z = false) by (apply Z.ltb_ge; lia).
  rewrite E. split; intros Hsh; rewrite Hsh.
  - cbn [fst snd]. by rewrite take_rows_all.
  - pose proof (np_random_permutation_perm g (seq 0 (length pts))) as Hperm.
    destruct (np_random_permutation g (seq 0 (length pts)))
      as [choice g'] eqn:Ec.
    cbn [fst snd] in *.
    assert (Hb : Forall (fun i => (i < length pts)%nat) choice)
      by (rewrite Hperm; apply seq_bound).
    destruct (take_rows_ok pts choice Hb) as (rows & Hrows & Hall).
    rewrite Hrows. cbn [rbind]. exists rows, g'. split; [reflexivity |].
    rewrite (take_rows_omap pts choice rows Hrows).
    rewrite Hperm.
    by rewrite <- (take_rows_omap pts _ pts (take_rows_all pts)).
Qed.

(** X23.  Padding.  Without shuffling and without a transform, a cloud
    of fewer than [num_points] points, with [num_points] at most twice
    their number, gives exactly [num_points] rows: the stored cloud in its
    order, followed by rows of the cloud taken at pairwise different
    positions. *)
Theorem getitem_pad self (index : Z) (g : rng) (md : meta) (ind : nat) pts :
  list_getitem (meta_data self) index = Ok md ->
  classes_to_ind_map self !! class md = Some ind ->
  _load_pts (pts_path md) = Ok pts ->
  shuffle_points self = false -> transform self = None ->
  (Z.of_nat (length pts) < num_points self)%Z ->
  (num_points self <= 2 * Z.of_nat (length pts))%Z ->
  exists pad idx g',
    getitem' self index g = Ok (mkItem (pts ++ pad) ind, g') /\
    length (pts ++ pad) = Z.to_nat (num_points self) /\
    NoDup idx /\ take_rows pts idx = Ok pad.
Proof.
  intros Hmd Hind Hpts Hsh Ht Hlt Hle.
  rewrite (getitem_loaded self index g md ind pts Hmd Hind Hpts).
  unfold make_choice. rewrite Hsh, Ht.
  assert (E1 : (0 <? num_points self)%Z = true) by (apply Z.ltb_lt; lia).
  assert (E2 : (num_points self <=? Z.of_nat (length pts))%Z = false)
    by (apply Z.leb_gt; lia).
  rewrite E1, E2.
  pose proof (np_random_permutation_perm g (seq 0 (length pts))) as Hperm.
  destruct (np_random_permutation g (seq 0 (length pts)))
    as [shuffled g'] eqn:Es.
  cbn [fst snd] in *.
  set (idx := take (Z.to_nat (num_points self - Z.of_nat (length pts)))
                shuffled).
  assert (Hb : Forall (fun i => (i < length pts)%nat) idx).
  { apply Forall_take. rewrite Hperm. apply seq_bound. }
  destruct (take_rows_ok pts idx Hb) as (pad & Hpad & Hall).
  rewrite (take_rows_app pts _ idx pts pad (take_rows_all pts) Hpad).
  cbn [rbind]. exists pad, idx, g'. split; [reflexivity |].
  split; [| split; [| exact Hpad]].
  - rewrite length_app, <- (Forall2_length _ _ _ Hall).
    unfold idx. rewrite length_take.
    rewrite (Permutation_length Hperm), length_seq. lia.
  - apply (sublist_NoDup idx shuffled); [| apply sublist_take].
    rewrite Hperm. apply NoDup_seq.
Qed.

(** X24.  Indexing follows Python lists: an index below [-len(self)] or
    from [len(self)] up raises [IndexError], and a negative index within
    range names the same entry as that index plus [len(self)]. *)
Theorem getitem_index self (index : Z) (g : rng) :
  let n := Z.of_nat (__len__ self) in
  ((index < - n \/ n <= index)%Z ->
     getitem' self index g = Raise IndexError) /\
  ((- n <= index < 0)%Z ->
     getitem' self index g = getitem' self (index + n) g).
Proof.
  intros n. unfold __len__ in n. split.
  - intros Hout. unfold __getitem__, list_getitem. fold n.
    destruct (index <? 0)%Z eqn:Eneg.
    + apply Z.ltb_lt in Eneg.
      assert (E : ((index + n <? 0) || (n <=? index + n))%Z = true).
      { apply orb_true_iff. left. apply Z.ltb_lt. lia. }
      by rewrite E.
    + apply Z.ltb_ge in Eneg.
      assert (E : ((index <? 0) || (n <=? index))%Z = true).
      { apply orb_true_iff. right. apply Z.leb_le. lia. }
      by rewrite E.
  - intros Hin.
    assert (Hl : list_getitem (meta_data self) index
                 = list_getitem (meta_data self) (index + n)).
    { unfold list_getitem. fold n.
      assert (E1 : (index <? 0)%Z = true) by (apply Z.ltb_lt; lia).
      assert (E2 : (index + n <? 0)%Z = false) by (apply Z.ltb_ge; lia).
      rewrite E1. cbv beta iota zeta. rewrite !E2. reflexivity. }
    unfold __getitem__. by rewrite Hl.
Qed.

End FewShotMore.

(** *** Concrete runs on a cloud of three points *)

Definition three_points : list (list Q) :=
  [[1 # 1; 0 # 1; 0 # 1]; [0 # 1; 1 # 1; 0 # 1]; [0 # 1; 0 # 1; 1 # 1]].

Definition load_three_points (fname : string) : result (list (list Q)) :=
  if String.eqb fname "data/02691156/points/a1.pts" then Ok three_points
  else Raise IOError.

(** A dataset of one entry, asking for [n] points. *)
Definition dataset_of (n : Z) : ShapeNetFewShot (point:=list Q) :=
  mkShapeNetFewShot n false None (<["Airplane" := 0]> ∅) [meta_a1].

Lemma getitem_rows_from_cloud_witness :
  exists it g',
    __getitem__ keep_order load_three_points (dataset_of 5) 0 tt = Ok (it, g')
    /\ cls_labels it = 0.
Proof.
  destruct (getitem_rows_from_cloud keep_order load_three_points
              keep_order_perm (dataset_of 5) 0 tt meta_a1 0 three_points
              eq_refl eq_refl eq_refl eq_refl)
    as (it & g' & Hg & Hl & _).
  exists it, g'. split; [exact Hg | exact Hl].
Defined.

Lemma getitem_crop_witness :
  __getitem__ keep_order load_three_points (dataset_of 2) 0 tt
    = Ok (mkItem [[1 # 1; 0 # 1; 0 # 1]; [0 # 1; 1 # 1; 0 # 1]] 0, tt).
Proof.
  apply (getitem_crop keep_order load_three_points (dataset_of 2) 0 tt
           meta_a1 0 three_points eq_refl eq_refl eq_refl eq_refl eq_refl
           eq_refl).
  simpl. lia.
Defined.

Lemma getitem_whole_cloud_witness :
  __getitem__ keep_order load_three_points (dataset_of (-1)) 0 tt
    = Ok (mkItem three_points 0, tt).
Proof.
  destruct (getitem_whole_cloud keep_order load_three_points keep_order_perm
              (dataset_of (-1)) 0 tt meta_a1 0 three_points
              eq_refl eq_refl eq_refl eq_refl ltac:(simpl; lia))
    as [H _].
  apply H. reflexivity.
Defined.

Lemma getitem_pad_witness :
  exists pad g',
    __getitem__ keep_order load_three_points (dataset_of 5) 0 tt
      = Ok (mkItem (three_points ++ pad) 0, g') /\
    length (three_points ++ pad) = 5.
Proof.
  destruct (getitem_pad keep_order load_three_points keep_order_perm
              (dataset_of 5) 0 tt meta_a1 0 three_points
              eq_refl eq_refl eq_refl eq_refl eq_refl
              ltac:(simpl; lia) ltac:(simpl; lia))
    as (pad & idx & g' & Hg & Hlen & _).
  exists pad, g'. split; [exact Hg | exact Hlen].
Defined.

Lemma getitem_index_witness :
  __getitem__ keep_order load_three_points (dataset_of 2) 1 tt
    = Raise IndexError /\
  __getitem__ keep_order load_three_points (dataset_of 2) (-1) tt
    = __getitem__ keep_order load_three_points (dataset_of 2) 0 tt.
Proof.
  destruct (getitem_index keep_order load_three_points (dataset_of 2) 1 tt)
    as [H1 _].
  destruct (getitem_index keep_order load_three_points (dataset_of 2) (-1) tt)
    as [_ H2].
  split; [apply H1 | apply H2]; unfold __len__; simpl; lia.
Defined.

End FewShotMore.

(** * Construction of the few-shot dataset *)

From stdpp Require Import pretty.

(** [ShapeNetFewShot.__init__] with [_load_cat_file] and [_load_dataset].
    Unpacking a sequence of the wrong length raises [ValueError]. *)

Module FewShotInit.
Import PyStr Posixpath FewShot.
Local Open Scope list_scope.

Inductive pyexn : Type :=
| Exn (e : exn)
| ValueError.

Inductive res (A : Type) : Type :=
| Ret (a : A)
| Err (e : pyexn).

Arguments Ret {A} a.
Arguments Err {A} e.

Definition bind {A B} (r : res A) (k : A -> res B) : res B :=
  match r with
  | Ret a => k a
  | Err e => Err e
  end.

Notation "x <~ r ;; k" := (bind r (fun x => k))
  (at level 100, r at next level, right associativity).

Definition lift {A} (r : result A) : res A :=
  match r with
  | Ok a => Ret a
  | Raise e => Err (Exn e)
  end.

(** [s.split()]: the maximal runs of characters that are not whitespace. *)
Fixpoint split_ws (s : string) : list string :=
  match s with
  | EmptyString => []
  | String c r =>
      if isspace c then split_ws r
      else
        match r with
        | EmptyString => [String c EmptyString]
        | String c2 _ =>
            if isspace c2 then String c EmptyString :: split_ws r
            else
              match split_ws r with
              | h :: t => String c h :: t
              | [] => [String c EmptyString]
              end
        end
  end.

(** [s.split(c)] for a one-character separator. *)
Fixpoint split_on (c : ascii) (s : string) : list string :=
  match s with
  | EmptyString => [EmptyString]
  | String a r =>
      if Ascii.eqb a c then EmptyString :: split_on c r
      else
        match split_on c r with
        | h :: t => String a h :: t
        | [] => [String a EmptyString]
        end
  end.

(** The lines a text file yields when iterated, each with its newline;
    a last line without one is yielded too. *)
Fixpoint lines (s : string) : list string :=
  match s with
  | EmptyString => []
  | String c r =>
      if Ascii.eqb c "010"%char then String c EmptyString :: lines r
      else
        match lines r with
        | h :: t => String c h :: t
        | [] => [String c EmptyString]
        end
  end.

(** [d[k] = v] on a dictionary that keeps the order of insertion. *)
Fixpoint dict_set (k v : string) (d : list (string * string))
  : list (string * string) :=
  match d with
  | [] => [(k, v)]
  | (k', v') :: r =>
      if String.eqb k' k then (k', v) :: r else (k', v') :: dict_set k v r
  end.

(** The class attributes. *)
Definition train_cat_file : string := "train_synsetoffset2category.txt".
Definition target_cat_file : string := "target_synsetoffset2category.txt".
Definition split_dir : string := "fewshot_split".
Definition dataset_map : gmap string string :=
  <["train" := "shuffled_train_file_list.json"]>
 (<["val" := "shuffled_val_file_list.json"]>
 (<["support_all" := "shuffled_support_all_file_list.json"]>
 (<["support" := "support_smp{}_cross{}_file_list.json"]>
 (<["target" := "shuffled_target_file_list.json"]> ∅)))).

(** [dataset_map["support"].format(num_per_class, cross_num)] *)
Definition support_file (num_per_class cross_num : Z) : string :=
  ("support_smp" ++ pretty num_per_class ++ "_cross" ++ pretty cross_num
   ++ "_file_list.json")%string.

Section FewShotInit.
Context {point : Type}.

(** [open(path, 'r')] and the text read from it. *)
Variable open_read : string -> result string.
(** [get_md5_for_file(path)] of [shaper_few_shot.utils.get_md5]. *)
Variable get_md5_for_file : string -> result string.
(** [json.load(open(path, 'r'))], for a file holding a list of strings. *)
Variable json_load : string -> result (list string).

(** The loop of [_load_cat_file] over the lines of the file. *)
Fixpoint load_cat_lines (class_to_offset_map : list (string * string))
    (ls : list string) : res (list (string * string)) :=
  match ls with
  | [] => Ret class_to_offset_map
  | line :: rest =>
      match split_ws (strip line) with
      | [class_name; class_dir] =>
          load_cat_lines (dict_set class_name class_dir class_to_offset_map)
            rest
      | _ => Err ValueError
      end
  end.

(** [_load_cat_file(self)] *)
Definition _load_cat_file (root_dir cat_file : string)
  : res (list (string * string)) :=
  content <~ lift (open_read (join root_dir cat_file)) ;;
  load_cat_lines [] (lines content).

(** The loop of [_load_dataset] over the file names of the split. *)
Fixpoint load_entries (root_dir : string)
    (offset_to_class_map : gmap string string) (fname_list : list string)
  : res (list meta) :=
  match fname_list with
  | [] => Ret []
  | fname :: rest =>
      match split_on sep fname with
      | [_; offset; token] =>
          let pts_path :=
            join (join (join root_dir offset) "points")
              (token ++ ".pts")%string in
          match offset_to_class_map !! offset with
          | None => Err (Exn KeyError)
          | Some class_name =>
              meta_data <~ load_entries root_dir offset_to_class_map rest ;;
              Ret (mkMeta token class_name pts_path :: meta_data)
          end
      | _ => Err ValueError
      end
  end.

(** [_load_dataset(self, dataset_name)]: the entries and [MD5list] with
    the digest of the split file appended. *)
Definition _load_dataset (root_dir : string) (num_per_class cross_num : Z)
    (offset_to_class_map : gmap string string) (MD5list : list string)
    (dataset_name : string) : res (list meta * list string) :=
  pattern <~ match dataset_map !! dataset_name with
             | Some p => Ret p
             | None => Err (Exn KeyError)
             end ;;
  let split_fname :=
    join (join root_dir split_dir)
      (if String.eqb dataset_name "support"
       then support_file num_per_class cross_num
       else pattern) in
  md5 <~ lift (get_md5_for_file split_fname) ;;
  let MD5list := MD5list ++ [md5] in
  fname_list <~ lift (json_load split_fname) ;;
  meta_data <~ load_entries root_dir offset_to_class_map fname_list ;;
  Ret (meta_data, MD5list).

(** A constructed [ShapeNetFewShot]: what [__getitem__] reads, and the
    other attributes. *)
Record instance : Type := mkInstance {
  base : ShapeNetFewShot (point:=point);
  root_dir_ : string;
  dataset_name_ : string;
  cat_file_ : string;
  class_to_offset_map_ : list (string * string);
  offset_to_class_map_ : gmap string string;
  classes_ : list string;
  MD5list_ : list string;
}.

(** [{v: k for k, v in d.items()}] *)
Definition invert (d : list (string * string)) : gmap string string :=
  foldl (fun m kv => <[kv.2 := kv.1]> m) ∅ d.

(** [{c: i for i, c in enumerate(classes)}] *)
Definition enumerate_map (classes : list string) : gmap string nat :=
  foldl (fun m ic => <[ic.2 := ic.1]> m) ∅
    (zip (seq 0 (length classes)) classes).

(** [__init__(self, root_dir, dataset_names, num_per_class, cross_num,
    transform, num_points, shuffle_points)].  The call of [sorted] on the
    classes has no effect: its result is dropped. *)
Definition __init__ (root_dir : string) (dataset_names : list string)
    (num_per_class cross_num : Z)
    (transform : option (list point -> list point)) (num_points : Z)
    (shuffle_points : bool) : res instance :=
  dataset_name <~ match dataset_names with
                  | [] => Err (Exn IndexError)
                  | n :: _ => Ret n
                  end ;;
  cat_file <~ (if existsb (String.eqb dataset_name) ["train"; "val"]
               then Ret train_cat_file
               else if existsb (String.eqb dataset_name)
                         ["support_all"; "support"; "target"]
               then Ret target_cat_file
               else Err (Exn NotImplementedError)) ;;
  class_to_offset_map <~ _load_cat_file root_dir cat_file ;;
  let offset_to_class_map := invert class_to_offset_map in
  let classes := class_to_offset_map.*1 in
  let classes_to_ind_map := enumerate_map classes in
  loaded <~ _load_dataset root_dir num_per_class cross_num
              offset_to_class_map [] dataset_name ;;
  Ret (mkInstance
         (mkShapeNetFewShot num_points shuffle_points transform
            classes_to_ind_map loaded.1)
         root_dir dataset_name cat_file class_to_offset_map
         offset_to_class_map classes loaded.2).

(** [get_md5_list(self)] *)
Definition get_md5_list (self : instance) : list string := MD5list_ self.

End FewShotInit.
End FewShotInit.

(** * Properties of the construction *)

Module FewShotInitFacts.
Import PyStr Posixpath FewShot FewShotInit.
Local Open Scope list_scope.

Lemma dict_set_fresh (k v : string) (d : list (string * string)) :
  k ∉ d.*1 -> dict_set k v d = d ++ [(k, v)].
Proof.
  induction d as [|[k' v'] d IH]; simpl; [done |].
  intros Hk. apply not_elem_of_cons in Hk as [Hne Hk].
  destruct (String.eqb k' k) eqn:E.
  - apply String.eqb_eq in E. congruence.
  - by rewrite IH.
Qed.

Lemma dict_set_keys (k v : string) (d : list (string * string)) :
  (dict_set k v d).*1 = if decide (k ∈ d.*1) then d.*1 else d.*1 ++ [k].
Proof.
  induction d as [|[k' v'] d IH]; [done |].
  cbn [dict_set]. destruct (String.eqb k' k) eqn:E.
  - apply String.eqb_eq in E. subst k'. rewrite !fmap_cons. cbn [fst].
    rewrite decide_True; [done | by left].
  - apply String.eqb_neq in E. rewrite !fmap_cons, IH. cbn [fst].
    destruct (decide (k ∈ d.*1)) as [Hin | Hout].
    + rewrite decide_True; [done | by right].
    + rewrite decide_False; [done |].
      intros H. apply elem_of_cons in H as [-> | H]; done.
Qed.

Lemma dict_set_NoDup (k v : string) (d : list (string * string)) :
  NoDup d.*1 -> NoDup (dict_set k v d).*1.
Proof.
  intros H. rewrite dict_set_keys. case_decide; [done |].
  apply NoDup_app. split; [done |]. split.
  - intros x Hx Hx'. apply list_elem_of_singleton in Hx'. by subst.
  - apply NoDup_singleton.
Qed.

(** The values of a dictionary come from the assignments made. *)
Lemma dict_set_values (k v : string) (d : list (string * string))
    (k0 v0 : string) :
  (k0, v0) ∈ dict_set k v d -> (k0, v0) ∈ d \/ (k0 = k /\ v0 = v).
Proof.
  induction d as [|[k' v'] d IH]; simpl.
  - intros H. apply list_elem_of_singleton in H. right.
    by injection H as -> ->.
  - destruct (String.eqb k' k) eqn:E.
    + apply String.eqb_eq in E. subst k'.
      intros H. apply elem_of_cons in H as [H | H].
      * right. by injection H as -> ->.
      * left. by right.
    + intros H. apply elem_of_cons in H as [H | H].
      * left. rewrite H. by left.
      * destruct (IH H) as [H' | H']; [left; by right | by right].
Qed.

Section Facts.
Context {point : Type}.
Variable open_read : string -> result string.
Variable get_md5_for_file : string -> result string.
Variable json_load : string -> result (list string).

Local Abbreviation _load_cat_file' := (_load_cat_file open_read).
Local Abbreviation _load_dataset' :=
  (_load_dataset get_md5_for_file json_load).
Local Abbreviation init' :=
  (__init__ (point:=point) open_read get_md5_for_file json_load).

Lemma load_cat_lines_NoDup (d d' : list (string * string))
    (ls : list string) :
  load_cat_lines d ls = Ret d' -> NoDup d.*1 -> NoDup d'.*1.
Proof.
  revert d. induction ls as [|line ls IH]; intros d; simpl.
  - by intros [= <-].
  - destruct (split_ws (strip line)) as [|a [|b [|c t]]]; try discriminate.
    intros H Hd. apply (IH _ H). by apply dict_set_NoDup.
Qed.

Lemma load_cat_lines_ok (d pairs : list (string * string))
    (ls : list string) :
  Forall2 (fun line kv => split_ws (strip line) = [kv.1; kv.2]) ls pairs ->
  NoDup (d ++ pairs).*1 ->
  load_cat_lines d ls = Ret (d ++ pairs).
Proof.
  intros H. revert d.
  induction H as [|line [k v] ls pairs Hline _ IH]; intros d Hnd; simpl.
  - by rewrite app_nil_r.
  - simpl in Hline. rewrite Hline.
    assert (Hk : k ∉ d.*1).
    { rewrite fmap_app in Hnd. apply NoDup_app in Hnd as (_ & Hdis & _).
      intros Hin. apply (Hdis k Hin). simpl. by left. }
    rewrite (dict_set_fresh k v d Hk).
    rewrite (IH (d ++ [(k, v)])); rewrite <- app_assoc; done.
Qed.

(** X25.  [_load_cat_file] on a file whose lines each hold a class name
    and an offset, separated and surrounded by any whitespace, with
    pairwise different class names, returns the pairs in the order of the
    lines. *)
Theorem load_cat_file_pairs (root_dir cat_file content : string)
    (pairs : list (string * string)) :
  open_read (join root_dir cat_file) = Ok content ->
  Forall2 (fun line kv => split_ws (strip line) = [kv.1; kv.2])
    (lines content) pairs ->
  NoDup pairs.*1 ->
  _load_cat_file' root_dir cat_file = Ret pairs.
Proof.
  intros Hread Hlines Hnd. unfold _load_cat_file. rewrite Hread. simpl.
  by rewrite (load_cat_lines_ok [] pairs).
Qed.

Lemma load_cat_lines_bad (d : list (string * string))
    (pre post : list string) (line : string) :
  Forall (fun l => length (split_ws (strip l)) = 2) pre ->
  length (split_ws (strip line)) <> 2 ->
  load_cat_lines d (pre ++ line :: post) = Err ValueError.
Proof.
  intros Hpre Hline. revert d.
  induction Hpre as [|l pre Hl _ IH]; intros d; simpl.
  - destruct (split_ws (strip line)) as [|a [|b [|c t]]]; simpl in *;
      done.
  - destruct (split_ws (strip l)) as [|a [|b [|c t]]]; simpl in *;
      first [done | apply IH].
Qed.

(** X26.  [_load_cat_file] raises [ValueError] at the first line that
    does not hold exactly two words; a blank line is such a line.  A file
    that cannot be opened gives the error of [open]. *)
Theorem load_cat_file_errors (root_dir cat_file : string) :
  (forall content pre post line,
     open_read (join root_dir cat_file) = Ok content ->
     lines content = pre ++ line :: post ->
     Forall (fun l => length (split_ws (strip l)) = 2) pre ->
     (length (split_ws (strip line)) <> 2 \/ strip line = ""%string) ->
     _load_cat_file' root_dir cat_file = Err ValueError) /\
  (forall e, open_read (join root_dir cat_file) = Raise e ->
             _load_cat_file' root_dir cat_file = Err (Exn e)).
Proof.
  split.
  - intros content pre post line Hread Hl Hpre Hbad.
    unfold _load_cat_file. rewrite Hread. simpl. rewrite Hl.
    apply load_cat_lines_bad; [done |].
    destruct Hbad as [H | H]; [done | by rewrite H].
  - intros e Hread. unfold _load_cat_file. by rewrite Hread.
Qed.

(** X27.  [__init__] looks at the dataset name before any file: an empty
    [dataset_names] raises [IndexError], and a first name other than
    "train", "val", "support_all", "support" and "target" raises
    [NotImplementedError], whatever the files hold. *)
Theorem init_rejects_name (root_dir : string) (dataset_names : list string)
    (num_per_class cross_num : Z)
    (transform : option (list point -> list point)) (num_points : Z)
    (shuffle_points : bool) :
  (dataset_names = [] ->
     __init__ open_read get_md5_for_file json_load root_dir dataset_names
       num_per_class cross_num transform num_points shuffle_points
     = Err (Exn IndexError)) /\
  (forall name rest,
     dataset_names = name :: rest ->
     ~ In name ["train"; "val"; "support_all"; "support"; "target"]%string ->
     __init__ open_read get_md5_for_file json_load root_dir dataset_names
       num_per_class cross_num transform num_points shuffle_points
     = Err (Exn NotImplementedError)).
Proof.
  split.
  - by intros ->.
  - intros name rest -> Hname. unfold __init__. simpl bind at 1.
    assert (E : forall s, In s ["train"; "val"; "support_all"; "support";
                                "target"]%string ->
                          String.eqb name s = false).
    { intros s Hs. apply String.eqb_neq. intros ->. contradiction. }
    simpl existsb.
    rewrite !E by (simpl; tauto). reflexivity.
Qed.

Lemma enumerate_map_snoc (cs : list string) (x : string) :
  enumerate_map (cs ++ [x]) = <[x := length cs]> (enumerate_map cs).
Proof.
  unfold enumerate_map.
  assert (E : seq 0 (length (cs ++ [x])) = seq 0 (length cs) ++ [length cs])
    by (rewrite length_app, seq_app; reflexivity).
  rewrite E, zip_with_app by (by rewrite length_seq).
  rewrite foldl_app. reflexivity.
Qed.

(** Under distinct names, the map gives each class its position. *)
Lemma enumerate_map_lookup (cs : list string) (c : string) (i : nat) :
  NoDup cs -> enumerate_map cs !! c = Some i <-> cs !! i = Some c.
Proof.
  induction cs as [|x cs IH] using rev_ind; intros Hnd.
  - unfold enumerate_map. simpl. by rewrite lookup_empty, lookup_nil.
  - apply NoDup_app in Hnd as (Hnd & Hdis & _).
    assert (Hx : x ∉ cs).
    { intros Hin. apply (Hdis x Hin). by left. }
    rewrite enumerate_map_snoc, lookup_snoc_Some.
    destruct (decide (c = x)) as [-> | Hne].
    + rewrite lookup_insert_eq. split.
      * intros [= <-]. by right.
      * intros [[_ H] | [H _]]; [| by rewrite H].
        exfalso. apply Hx. by apply list_elem_of_lookup_2 with i.
    + rewrite lookup_insert_ne by done. rewrite (IH Hnd). split.
      * intros H. left. split; [by apply lookup_lt_Some in H | done].
      * intros [[_ H] | [_ H]]; [done | congruence].
Qed.

Lemma invert_snoc (d : list (string * string)) (kv : string * string) :
  invert (d ++ [kv]) = <[kv.2 := kv.1]> (invert d).
Proof. unfold invert. by rewrite foldl_app. Qed.

(** The classes the inverted map names are keys of the dictionary. *)
Lemma invert_lookup (d : list (string * string)) (v k : string) :
  invert d !! v = Some k -> k ∈ d.*1.
Proof.
  induction d as [|[k' v'] d IH] using rev_ind.
  - unfold invert. simpl. by rewrite lookup_empty.
  - rewrite invert_snoc, fmap_app. simpl.
    destruct (decide (v' = v)) as [-> | Hne].
    + rewrite lookup_insert_eq. intros [= <-].
      apply elem_of_app. right. by left.
    + rewrite lookup_insert_ne by done. intros H.
      apply elem_of_app. left. by apply IH.
Qed.

Lemma load_entries_class (root_dir : string) (o2c : gmap string string)
    (fnames : list string) (metas : list meta) :
  load_entries root_dir o2c fnames = Ret metas ->
  Forall (fun md => exists offset, o2c !! offset = Some (class md)) metas.
Proof.
  revert metas. induction fnames as [|fname fnames IH]; intros metas; simpl.
  - intros [= <-]. constructor.
  - destruct (split_on sep fname) as [|a [|offset [|tok [|x t]]]];
      try discriminate.
    destruct (o2c !! offset) as [cn|] eqn:Ho; [| discriminate].
    destruct (load_entries root_dir o2c fnames) as [ms|e]; [| discriminate].
    simpl. intros [= <-]. constructor; [by exists offset | by apply IH].
Qed.

(** What a successful [__init__] has computed. *)
Lemma init_inv (root_dir : string) (dataset_names : list string)
    (num_per_class cross_num : Z)
    (transform : option (list point -> list point)) (num_points : Z)
    (shuffle_points : bool) (obj : instance (point:=point)) :
  init' root_dir dataset_names num_per_class cross_num transform
    num_points shuffle_points = Ret obj ->
  exists c2o metas,
    _load_cat_file' root_dir (cat_file_ obj) = Ret c2o /\
    class_to_offset_map_ obj = c2o /\
    classes_ obj = c2o.*1 /\
    offset_to_class_map_ obj = invert c2o /\
    classes_to_ind_map (base obj) = enumerate_map c2o.*1 /\
    meta_data (base obj) = metas /\
    Forall (fun md => exists offset,
              invert c2o !! offset = Some (class md)) metas.
Proof.
  unfold __init__. destruct dataset_names as [|name rest]; [discriminate |].
  simpl bind at 1.
  match goal with
  | |- bind ?x _ = _ -> _ => destruct x as [cf|e]; [| discriminate]
  end.
  simpl bind at 1.
  destruct (_load_cat_file open_read root_dir cf) as [c2o|e] eqn:Ec;
    [| discriminate].
  simpl bind at 1.
  destruct (_load_dataset _ _ _ _ _ _ _ _) as [[metas md5s]|e] eqn:El;
    [| discriminate].
  simpl. intros [= <-]. simpl. exists c2o, metas.
  repeat split; try done.
  unfold _load_dataset in El.
  destruct (dataset_map !! name); [| discriminate]. simpl in El.
  destruct (get_md5_for_file _); [| discriminate]. simpl in El.
  destruct (json_load _); [| discriminate]. simpl in El.
  destruct (load_entries _ _ _) as [ms|e] eqn:Em; [| discriminate].
  simpl in El. injection El as <- _.
  by apply load_entries_class in Em.
Qed.

Lemma load_cat_file_NoDup (root_dir cat_file : string)
    (c2o : list (string * string)) :
  _load_cat_file' root_dir cat_file = Ret c2o -> NoDup c2o.*1.
Proof.
  unfold _load_cat_file.
  destruct (open_read _) as [content|e]; [| discriminate]. simpl.
  intros H. apply (load_cat_lines_NoDup _ _ _ H). constructor.
Qed.

(** X28.  In a constructed dataset the classes are pairwise different
    and the class index is the position of the class in that list, which
    is the order in which the class names first appear in the category
    file (the list is not sorted). *)
Theorem init_class_indices (root_dir : string) (dataset_names : list string)
    (num_per_class cross_num : Z)
    (transform : option (list point -> list point)) (num_points : Z)
    (shuffle_points : bool) (obj : instance (point:=point)) :
  init' root_dir dataset_names num_per_class cross_num transform
    num_points shuffle_points = Ret obj ->
  NoDup (classes_ obj) /\
  classes_ obj = (class_to_offset_map_ obj).*1 /\
  forall c i, classes_to_ind_map (base obj) !! c = Some i <->
              classes_ obj !! i = Some c.
Proof.
  intros H.
  destruct (init_inv _ _ _ _ _ _ _ _ H)
    as (c2o & metas & Hc & -> & -> & _ & -> & _).
  pose proof (load_cat_file_NoDup _ _ _ Hc) as Hnd.
  split; [exact Hnd |]. split; [reflexivity |].
  intros c i. by apply enumerate_map_lookup.
Qed.

(** X29.  In a constructed dataset every entry has a class with an index:
    the class of an entry is a class of the category file, and its index
    is below the number of classes.  [__getitem__] therefore finds the
    label of every entry. *)
Theorem init_entries_labelled (root_dir : string)
    (dataset_names : list string) (num_per_class cross_num : Z)
    (transform : option (list point -> list point)) (num_points : Z)
    (shuffle_points : bool) (obj : instance (point:=point)) :
  init' root_dir dataset_names num_per_class cross_num transform
    num_points shuffle_points = Ret obj ->
  forall md, In md (meta_data (base obj)) ->
    exists i, classes_to_ind_map (base obj) !! class md = Some i /\
              (i < length (classes_ obj))%nat.
Proof.
  intros H md Hmd.
  destruct (init_inv _ _ _ _ _ _ _ _ H)
    as (c2o & metas & Hc & _ & -> & _ & -> & Hm & Hall).
  rewrite Hm in Hmd.
  pose proof (load_cat_file_NoDup _ _ _ Hc) as Hnd.
  rewrite Forall_forall in Hall.
  destruct (Hall md) as [offset Ho]; [by apply list_elem_of_In |].
  apply invert_lookup in Ho.
  destruct (list_elem_of_lookup_1 _ _ Ho) as [i Hi].
  exists i. split; [by apply enumerate_map_lookup |].
  by apply lookup_lt_Some in Hi.
Qed.

Lemma load_entries_ok (root_dir : string) (o2c : gmap string string)
    (fnames : list string) (metas : list meta) :
  Forall2 (fun fname md =>
             exists pre offset,
               split_on sep fname = [pre; offset; token md] /\
               o2c !! offset = Some (class md) /\
               pts_path md = join (join (join root_dir offset) "points")
                               (token md ++ ".pts")%string)
    fnames metas ->
  load_entries root_dir o2c fnames = Ret metas.
Proof.
  induction 1 as [|fname [tok cls pth] fnames metas
                    (pre & offset & Hs & Ho & Hp) _ IH]; simpl;
    [reflexivity |].
  simpl in Hs, Ho, Hp. rewrite Hs, Ho, IH. simpl. by rewrite Hp.
Qed.

(** X30.  [_load_dataset] reads the split file
    [root_dir/fewshot_split/<file of the dataset name>] and, when every
    name in it has the form [x/offset/token] with a known offset, returns
    one entry per name, in order, with the token, the class of the offset
    and the path [root_dir/offset/points/token.pts]; the digest of the
    split file is appended to [MD5list]. *)
Theorem load_dataset_entries (root_dir : string) (num_per_class cross_num : Z)
    (o2c : gmap string string) (MD5list : list string)
    (dataset_name pattern md5 : string) (fnames : list string)
    (metas : list meta) :
  let split_fname :=
    join (join root_dir split_dir)
      (if String.eqb dataset_name "support"
       then support_file num_per_class cross_num else pattern) in
  dataset_map !! dataset_name = Some pattern ->
  get_md5_for_file split_fname = Ok md5 ->
  json_load split_fname = Ok fnames ->
  Forall2 (fun fname md =>
             exists pre offset,
               split_on sep fname = [pre; offset; token md] /\
               o2c !! offset = Some (class md) /\
               pts_path md = join (join (join root_dir offset) "points")
                               (token md ++ ".pts")%string)
    fnames metas ->
  _load_dataset' root_dir num_per_class cross_num o2c MD5list dataset_name
    = Ret (metas, MD5list ++ [md5]) /\
  length metas = length fnames.
Proof.
  intros split_fname Hmap Hmd5 Hjson Hall. split.
  - unfold _load_dataset. rewrite Hmap. simpl bind at 1.
    fold split_fname. rewrite Hmd5, Hjson. simpl.
    by rewrite (load_entries_ok _ _ _ _ Hall).
  - symmetry. by apply (Forall2_length _ _ _ Hall).
Qed.

End Facts.

(** *** A data directory with two classes and two shapes *)

Definition nl : string := String "010"%char EmptyString.

Definition cat_text : string :=
  ("Airplane 02691156" ++ nl ++ "Chair   03001627 " ++ nl)%string.

Definition cat_text_blank : string :=
  ("Airplane 02691156" ++ nl ++ nl ++ "Chair 03001627" ++ nl)%string.

Definition open_read0 (path : string) : result string :=
  if String.eqb path "data/train_synsetoffset2category.txt" then Ok cat_text
  else if String.eqb path "data/target_synsetoffset2category.txt"
  then Ok cat_text_blank
  else Raise IOError.

Definition md5_0 (path : string) : result string := Ok "9e107d9d".

Definition json_load0 (path : string) : result (list string) :=
  if String.eqb path "data/fewshot_split/shuffled_train_file_list.json"
  then Ok ["shape_data/03001627/c1"; "shape_data/02691156/a1"]%string
  else Raise IOError.

Definition init0 : res (instance (point:=list Q)) :=
  __init__ open_read0 md5_0 json_load0 "data" ["train"]%string 1 0 None 4
    false.

Definition empty_instance : instance (point:=list Q) :=
  mkInstance (mkShapeNetFewShot 0 false None ∅ []) "" "" "" [] ∅ [] [].

(** The dataset [init0] constructs. *)
Definition obj0 : instance (point:=list Q) :=
  Eval vm_compute in
    match init0 with
    | Ret obj => obj
    | Err _ => empty_instance
    end.

Lemma init0_obj0 : init0 = Ret obj0.
Proof. vm_compute. reflexivity. Qed.

Lemma load_cat_file_pairs_witness :
  _load_cat_file open_read0 "data" train_cat_file
    = Ret [("Airplane", "02691156"); ("Chair", "03001627")]%string.
Proof.
  apply (load_cat_file_pairs open_read0 "data" train_cat_file cat_text).
  - reflexivity.
  - repeat constructor.
  - apply NoDup_cons. split; [| apply NoDup_singleton].
    intros H. apply list_elem_of_singleton in H. discriminate H.
Defined.

Lemma load_cat_file_errors_witness :
  _load_cat_file open_read0 "data" target_cat_file = Err ValueError.
Proof.
  destruct (load_cat_file_errors open_read0 "data" target_cat_file)
    as [H _].
  apply (H cat_text_blank [("Airplane 02691156" ++ nl)%string]
           [("Chair 03001627" ++ nl)%string] nl).
  - reflexivity.
  - reflexivity.
  - repeat constructor.
  - right. reflexivity.
Defined.

Lemma init_rejects_name_witness :
  __init__ (point:=list Q) open_read0 md5_0 json_load0 "data"
    ["test"]%string 1 0 None 4 false = Err (Exn NotImplementedError).
Proof.
  destruct (init_rejects_name (point:=list Q) open_read0 md5_0 json_load0
              "data" ["test"]%string 1 0 None 4 false) as [_ H].
  apply (H "test"%string []); [reflexivity |].
  simpl. intros E. repeat destruct E as [E | E]; try discriminate E.
  exact E.
Defined.

Lemma init_class_indices_witness :
  classes_to_ind_map (base obj0) !! "Chair"%string = Some 1.
Proof.
  destruct (init_class_indices open_read0 md5_0 json_load0 "data"
              ["train"]%string 1 0 None 4 false obj0 init0_obj0)
    as (_ & _ & H).
  apply H. reflexivity.
Defined.

Lemma init_entries_labelled_witness :
  exists i,
    classes_to_ind_map (base obj0) !! "Airplane"%string = Some i /\
    (i < 2)%nat.
Proof.
  apply (init_entries_labelled open_read0 md5_0 json_load0 "data"
           ["train"]%string 1 0 None 4 false obj0 init0_obj0
           (mkMeta "a1" "Airplane" "data/02691156/points/a1.pts")).
  simpl. right. left. reflexivity.
Defined.

Lemma load_dataset_entries_witness :
  _load_dataset md5_0 json_load0 "data" 1 0
    (invert [("Airplane", "02691156"); ("Chair", "03001627")]%string)
    [] "train"
  = Ret ([mkMeta "c1" "Chair" "data/03001627/points/c1.pts";
          mkMeta "a1" "Airplane" "data/02691156/points/a1.pts"],
         ["9e107d9d"]%string).
Proof.
  apply (load_dataset_entries md5_0 json_load0 "data" 1 0
           (invert [("Airplane", "02691156"); ("Chair", "03001627")]%string)
           [] "train" "shuffled_train_file_list.json" "9e107d9d"
           ["shape_data/03001627/c1"; "shape_data/02691156/a1"]%string).
  - reflexivity.
  - reflexivity.
  - reflexivity.
  - constructor; [| constructor; [| constructor]].
    + exists "shape_data"%string, "03001627"%string.
      repeat split; reflexivity.
    + exists "shape_data"%string, "02691156"%string.
      repeat split; reflexivity.
Defined.

End FewShotInitFacts.
